(** * SearchAutos: the Marketcheck search service

    A shallow embedding of [src/services/marketcheck.ts] together with the
    parts of [src/config.ts], [src/types.ts] and the search form it
    depends on: the query built by [searchVehicles], the handling of the
    HTTP response, [normalizeListing] and [sortListings].

    Modelling conventions.
    - A JavaScript [number] is an integer-valued double, kept exactly as a
      [Z], or [NaN].  Fractions, infinities and the negative zero are not
      represented; [Number_toString] is the decimal rendering JavaScript
      gives to integers below 10^21.
    - A string is a sequence of code units below 256.
    - A value that may be [undefined] is an [option]; untyped data (the
      parsed body of a response) is a [value].
    - [URLSearchParams] is an association list with the replace-or-append
      [set] of the platform.
    - [new URL] is the platform's: a parameter [URL_new] that gives the
      URL of a text, with the query the text came with, or throws.
      [URL_plain] is that constructor on the addresses it leaves as they
      are, an https address of lower-case names without query; closed
      examples run with it.
    - [Array.prototype.sort] is the stable sort the language prescribes,
      written as an insertion sort; a comparator result is used through
      its sign and a [NaN] result counts as zero.
    - [cryptoRandomId] reads the next token of a token source; the number
      of tokens drawn so far is threaded as state. *)

From Stdlib Require Import ZArith String Ascii List Bool Lia.
From Stdlib Require Import Permutation Sorted DecimalString.
Import ListNotations.
Local Open Scope string_scope.
Local Open Scope Z_scope.
Set Warnings "-register-all".

(** ** JavaScript numbers *)

Inductive number : Type :=
| Num (z : Z)
| NaN.

(** [n.toString()], for an integer of magnitude below 10^21 (from there
    on JavaScript prints an exponent) and for [NaN]. *)
Definition Number_toString (n : number) : string :=
  match n with
  | Num z => NilZero.string_of_int (Z.to_int z)
  | NaN => "NaN"
  end.

(** [Boolean(n)]: zero and [NaN] are falsy. *)
Definition Number_truthy (n : number) : bool :=
  match n with
  | Num z => negb (z =? 0)
  | NaN => false
  end.

Definition Number_sub (a b : number) : number :=
  match a, b with
  | Num x, Num y => Num (x - y)
  | _, _ => NaN
  end.

Definition Math_min (a b : number) : number :=
  match a, b with
  | Num x, Num y => Num (Z.min x y)
  | _, _ => NaN
  end.

Definition Math_max (a b : number) : number :=
  match a, b with
  | Num x, Num y => Num (Z.max x y)
  | _, _ => NaN
  end.

(** ** Strings *)

(** White space of [String.prototype.trim] among the code units below 256:
    TAB, LF, VT, FF, CR, SP and NBSP. *)
Definition is_whitespace (c : ascii) : bool :=
  let n := Z.of_N (N_of_ascii c) in
  ((9 <=? n) && (n <=? 13)) || (n =? 32) || (n =? 160).

Fixpoint trimStart (s : string) : string :=
  match s with
  | String c s' => if is_whitespace c then trimStart s' else s
  | EmptyString => EmptyString
  end.

Fixpoint trimEnd (s : string) : string :=
  match s with
  | String c s' =>
      match trimEnd s' with
      | EmptyString => if is_whitespace c then EmptyString else String c EmptyString
      | t => String c t
      end
  | EmptyString => EmptyString
  end.

Definition trim (s : string) : string := trimEnd (trimStart s).

(** [Boolean(s)] and the test [if (s)] on a string. *)
Definition String_truthy (s : string) : bool :=
  match s with
  | EmptyString => false
  | String _ _ => true
  end.

(** [s.replace(/\/$/, '')]: one trailing slash is dropped. *)
Fixpoint strip_trailing_slash (s : string) : string :=
  match s with
  | String c s' =>
      match s' with
      | EmptyString => if Ascii.eqb c "/" then EmptyString else s
      | String _ _ => String c (strip_trailing_slash s')
      end
  | EmptyString => EmptyString
  end.

Definition digit_of (c : ascii) : option Z :=
  let n := Z.of_N (N_of_ascii c) in
  if (48 <=? n) && (n <=? 57) then Some (n - 48) else None.

(** The longest prefix of decimal digits, as a number; [None] when the
    string does not start with a digit. *)
Fixpoint leading_digits (acc : option Z) (s : string) : option Z :=
  match s with
  | String c s' =>
      match digit_of c with
      | Some d =>
          leading_digits
            (Some (10 * (match acc with Some a => a | None => 0 end) + d)) s'
      | None => acc
      end
  | EmptyString => acc
  end.

(** [Number.parseInt(s, 10)]. *)
Definition Number_parseInt (s : string) : number :=
  let t := trimStart s in
  let (sign, rest) :=
    match t with
    | String "-" r => (-1, r)
    | String "+" r => (1, r)
    | _ => (1, t)
    end in
  match leading_digits None rest with
  | Some n => Num (sign * n)
  | None => NaN
  end.

(** ** Nullish coalescing and logical or *)

Definition nullish {A : Type} (a b : option A) : option A :=
  match a with
  | Some x => Some x
  | None => b
  end.

Definition nullish_default {A : Type} (a : option A) (b : A) : A :=
  match a with
  | Some x => x
  | None => b
  end.

Infix "??" := nullish (at level 60, right associativity).
Infix "?!" := nullish_default (at level 60, right associativity).

(** [Boolean(x)] for an optional number and an optional string. *)
Definition truthy_num (x : option number) : bool :=
  match x with
  | Some n => Number_truthy n
  | None => false
  end.

Definition truthy_str (x : option string) : bool :=
  match x with
  | Some s => String_truthy s
  | None => false
  end.

(** ** Untyped values *)

Inductive value : Type :=
| Undefined
| Null
| Bool (b : bool)
| Number (n : number)
| Str (s : string)
| Array (elements : list value)
| Object (properties : list (string * value)).

Fixpoint lookup (k : string) (ps : list (string * value)) : option value :=
  match ps with
  | [] => None
  | (k', v) :: ps' => if String.eqb k' k then Some v else lookup k ps'
  end.

(** [k in v], for the names used here (none of them is an array index,
    [length] or a member of a prototype). *)
Definition has_property (k : string) (v : value) : bool :=
  match v with
  | Object ps => match lookup k ps with Some _ => true | None => false end
  | _ => false
  end.

(** [v.k] on a value that is neither [null] nor [undefined]. *)
Definition property (k : string) (v : value) : value :=
  match v with
  | Object ps => match lookup k ps with Some x => x | None => Undefined end
  | _ => Undefined
  end.

Definition Boolean (v : value) : bool :=
  match v with
  | Undefined | Null => false
  | Bool b => b
  | Number n => Number_truthy n
  | Str s => String_truthy s
  | Array _ | Object _ => true
  end.

(** [typeof v === 'object'] *)
Definition typeof_object (v : value) : bool :=
  match v with
  | Null | Array _ | Object _ => true
  | _ => false
  end.

Definition Array_isArray (v : value) : bool :=
  match v with
  | Array _ => true
  | _ => false
  end.

Definition elements_of (v : value) : list value :=
  match v with
  | Array l => l
  | _ => []
  end.

(** [String(v)] *)
Fixpoint String_ (v : value) : string :=
  match v with
  | Undefined => "undefined"
  | Null => "null"
  | Bool true => "true"
  | Bool false => "false"
  | Number n => Number_toString n
  | Str s => s
  | Array l =>
      String.concat ","
        (map (fun e => match e with
                       | Undefined | Null => ""
                       | _ => String_ e
                       end) l)
  | Object _ => "[object Object]"
  end.

(** [l.join(sep)] *)
Definition Array_join (sep : string) (l : list value) : string :=
  String.concat sep
    (map (fun e => match e with
                   | Undefined | Null => ""
                   | _ => String_ e
                   end) l).

Definition of_number (x : option number) : value :=
  match x with Some n => Number n | None => Undefined end.

Definition of_string (x : option string) : value :=
  match x with Some s => Str s | None => Undefined end.

(** ** Exceptions *)

Inductive exn : Type :=
| Error (message : string)
| TypeError
| SyntaxError.

Inductive result (A : Type) : Type :=
| Ok (a : A)
| Throw (e : exn).
Arguments Ok {A} a.
Arguments Throw {A} e.

(** ** URLSearchParams *)

Definition URLSearchParams := list (string * string).

Definition delete (q : URLSearchParams) (k : string) : URLSearchParams :=
  filter (fun p => negb (String.eqb (fst p) k)) q.

Fixpoint set (q : URLSearchParams) (k v : string) : URLSearchParams :=
  match q with
  | [] => [(k, v)]
  | (k', v') :: q' =>
      if String.eqb k' k then (k, v) :: delete q' k
      else (k', v') :: set q' k v
  end.

Fixpoint get (q : URLSearchParams) (k : string) : option string :=
  match q with
  | [] => None
  | (k', v) :: q' => if String.eqb k' k then Some v else get q' k
  end.

Definition has (q : URLSearchParams) (k : string) : bool :=
  match get q k with Some _ => true | None => false end.

(** ** types.ts *)

Inductive SortOption : Type := priceAsc | priceDesc | distance | mileageAsc.

Inductive SortDirection : Type := asc | desc.

Definition SortDirection_string (d : SortDirection) : string :=
  match d with asc => "asc" | desc => "desc" end.

Module SelectedLocation.
Record t : Type := {
  description : string;
  city : string;
  state : string;
  lat : number;
  lng : number
}.
End SelectedLocation.

Module SearchCriteria.
Record t : Type := {
  location : SelectedLocation.t;
  radius : number;
  make : option string;
  model : option string;
  color : option string;
  minYear : option number;
  maxYear : option number;
  minMiles : option number;
  maxMiles : option number;
  minPrice : option number;
  maxPrice : option number;
  sortBy : SortOption
}.
End SearchCriteria.

Module VehicleListing.
Record t : Type := {
  id : string;
  title : string;
  price : option number;
  mileage : option number;
  distance : option number;
  exteriorColor : option string;
  interiorColor : option string;
  year : option number;
  make : option string;
  model : option string;
  trim : option string;
  bodyType : option string;
  transmission : option string;
  drivetrain : option string;
  fuelType : option string;
  dealerName : option string;
  dealerCity : option string;
  dealerState : option string;
  dealerPhone : option string;
  dealerWebsite : option string;
  listingUrl : option string;
  imageUrl : option string
}.
End VehicleListing.

(** ** config.ts *)

Module Env.
Record t : Type := {
  VITE_GOOGLE_MAPS_API_KEY : option string;
  VITE_MARKETCHECK_API_KEY : option string;
  VITE_MARKETCHECK_BASE_URL : option string;
  VITE_RESULTS_PER_PAGE : option string
}.
End Env.

Module AppConfig.
Record t : Type := {
  googleMapsApiKey : option string;
  marketcheckApiKey : option string;
  marketcheckBaseUrl : string;
  resultsPerPage : number
}.
End AppConfig.

Definition DEFAULT_MARKETCHECK_BASE : string := "https://api.marketcheck.com/v2".

Definition appConfig (env : Env.t) : AppConfig.t :=
  {| AppConfig.googleMapsApiKey := Env.VITE_GOOGLE_MAPS_API_KEY env;
     AppConfig.marketcheckApiKey := Env.VITE_MARKETCHECK_API_KEY env;
     AppConfig.marketcheckBaseUrl :=
       Env.VITE_MARKETCHECK_BASE_URL env ?! DEFAULT_MARKETCHECK_BASE;
     AppConfig.resultsPerPage :=
       Number_parseInt (Env.VITE_RESULTS_PER_PAGE env ?! "24") |}.

Definition MISSING_MARKETCHECK_KEY : string :=
  "Missing VITE_MARKETCHECK_API_KEY. Add it to your .env file to enable vehicle search.".

Definition assertMarketcheckApiKey (cfg : AppConfig.t) : result string :=
  if negb (truthy_str (AppConfig.marketcheckApiKey cfg))
  then Throw (Error MISSING_MARKETCHECK_KEY)
  else Ok (AppConfig.marketcheckApiKey cfg ?! "").

(** ** The search form: how a criteria value is made from a field *)

(** [sanitizeText] of [submitHandler]. *)
Definition sanitizeText (v : option string) : option string :=
  match v with
  | None => None
  | Some s =>
      if negb (String_truthy s) then None
      else
        let trimmed := trim s in
        if (0 <? Z.of_nat (String.length trimmed)) then Some trimmed else None
  end.

(** ** marketcheck.ts: the raw listing *)

Module Media.
Record t : Type := { photo_links : option (list string) }.
End Media.

Module Dealer.
Record t : Type := {
  name : option string;
  city : option string;
  state : option string;
  phone : option string;
  website : option string
}.
Definition empty : t := Build_t None None None None None.
End Dealer.

Module Build.
Record t : Type := {
  year : option number;
  make : option string;
  model : option string;
  trim : option string;
  body_type : option string;
  transmission : option string;
  drivetrain : option string;
  fuel_type : option string
}.
Definition empty : t := Build_t None None None None None None None None.
End Build.

Module MarketcheckListing.
Record t : Type := {
  id : option string;
  vin : option string;
  heading : option string;
  price : option number;
  miles : option number;
  mileage : option number;
  dist : option number;
  distance : option number;
  exterior_color : option string;
  interior_color : option string;
  media : option Media.t;
  dealer : option Dealer.t;
  build : option Build.t;
  vdp_url : option string;
  ref_price : option number;
  scraped_listing_url : option string;
  website : option string
}.
End MarketcheckListing.

Module SortConfig.
Record t : Type := { sortBy : string; sortOrder : option SortDirection }.
End SortConfig.

(** [SORT_MAPPING[sortBy]]; the table has an entry for each option. *)
Definition SORT_MAPPING (sortBy : SortOption) : option SortConfig.t :=
  match sortBy with
  | priceAsc => Some {| SortConfig.sortBy := "price"; SortConfig.sortOrder := Some asc |}
  | priceDesc => Some {| SortConfig.sortBy := "price"; SortConfig.sortOrder := Some desc |}
  | distance => Some {| SortConfig.sortBy := "distance"; SortConfig.sortOrder := Some asc |}
  | mileageAsc => Some {| SortConfig.sortBy := "miles"; SortConfig.sortOrder := Some asc |}
  end.

Definition API_PATH : string := "search/car/active".

(** ** The request of [searchVehicles] *)

Module Request.
Record t : Type := { href : string; searchParams : URLSearchParams }.
End Request.

(** The text of a range, [`${min}-${max}`], each bound being the number
    given or else the default text. *)
Definition range_text (lo hi : option number) (dlo dhi : string) : string :=
  let min := match lo with Some n => Number_toString n | None => dlo end in
  let max := match hi with Some n => Number_toString n | None => dhi end in
  min ++ "-" ++ max.

(** Lines 64 to 102 of [searchVehicles]: the parameters are set one after
    the other on [url.searchParams], which holds at first the query the
    address of the URL came with. *)
Definition buildSearchParams (searchParams : URLSearchParams) (apiKey : string)
    (cfg : AppConfig.t) (criteria : SearchCriteria.t) : URLSearchParams :=
  let q : URLSearchParams := searchParams in
  let q := set q "api_key" apiKey in
  let q := set q "latitude"
             (Number_toString (SelectedLocation.lat (SearchCriteria.location criteria))) in
  let q := set q "longitude"
             (Number_toString (SelectedLocation.lng (SearchCriteria.location criteria))) in
  let q := set q "radius" (Number_toString (SearchCriteria.radius criteria)) in
  let q := set q "car_type" "used" in
  let q := set q "start" "0" in
  let q := set q "rows"
             (Number_toString
                (Math_max (Num 1) (Math_min (AppConfig.resultsPerPage cfg) (Num 50)))) in
  let q := if truthy_str (SearchCriteria.make criteria)
           then set q "make" (SearchCriteria.make criteria ?! "") else q in
  let q := if truthy_str (SearchCriteria.model criteria)
           then set q "model" (SearchCriteria.model criteria ?! "") else q in
  let q := if truthy_str (SearchCriteria.color criteria)
           then set q "exterior_color" (SearchCriteria.color criteria ?! "") else q in
  let q := if truthy_num (SearchCriteria.minYear criteria)
              || truthy_num (SearchCriteria.maxYear criteria)
           then set q "year_range"
                  (range_text (SearchCriteria.minYear criteria)
                     (SearchCriteria.maxYear criteria) "2000" "2030")
           else q in
  let q := if truthy_num (SearchCriteria.minMiles criteria)
              || truthy_num (SearchCriteria.maxMiles criteria)
           then set q "miles_range"
                  (range_text (SearchCriteria.minMiles criteria)
                     (SearchCriteria.maxMiles criteria) "0" "1000")
           else q in
  let q := if truthy_num (SearchCriteria.minPrice criteria)
              || truthy_num (SearchCriteria.maxPrice criteria)
           then set q "price_range"
                  (range_text (SearchCriteria.minPrice criteria)
                     (SearchCriteria.maxPrice criteria) "0" "100000")
           else q in
  match SORT_MAPPING (SearchCriteria.sortBy criteria) with
  | Some sortConfig =>
      let q := set q "sort_by" (SortConfig.sortBy sortConfig) in
      match SortConfig.sortOrder sortConfig with
      | Some o => set q "sort_order" (SortDirection_string o)
      | None => q
      end
  | None => q
  end.

(** The text [`${baseUrl}/${API_PATH}`] that [new URL] is given. *)
Definition request_address (cfg : AppConfig.t) : string :=
  let baseUrl := strip_trailing_slash (AppConfig.marketcheckBaseUrl cfg) in
  baseUrl ++ "/" ++ API_PATH.

(** Lines 60 to 104 of [searchVehicles]: the key is asserted first, then
    the URL is made and its parameters are set.  [URL_new] is the
    constructor [new URL] of the platform: it throws a [TypeError] on a
    text that is no absolute URL and returns the URL, its address without
    the query and its query, on the others. *)
Definition searchRequest (URL_new : string -> result Request.t)
    (cfg : AppConfig.t) (criteria : SearchCriteria.t) : result Request.t :=
  match assertMarketcheckApiKey cfg with
  | Throw e => Throw e
  | Ok apiKey =>
      match URL_new (request_address cfg) with
      | Throw e => Throw e
      | Ok url =>
          Ok {| Request.href := Request.href url;
                Request.searchParams :=
                  buildSearchParams (Request.searchParams url) apiKey cfg criteria |}
      end
  end.

(** ** An address in plain form

    The scheme [https://], a host of labels of lower-case letters
    separated by dots, and a path of one or more segments of lower-case
    letters and digits, each after a slash.  The platform returns the URL
    of such an address as it is written, with an empty query; the default
    address of the service is one. *)

Definition is_lower (c : ascii) : bool :=
  let n := Z.of_N (N_of_ascii c) in (97 <=? n) && (n <=? 122).

Definition is_lower_or_digit (c : ascii) : bool :=
  let n := Z.of_N (N_of_ascii c) in
  ((97 <=? n) && (n <=? 122)) || ((48 <=? n) && (n <=? 57)).

(** A path: segments of lower-case letters and digits, none empty, each
    after a slash; [fresh] says that a slash was just read. *)
Fixpoint plain_path (fresh : bool) (s : string) : bool :=
  match s with
  | EmptyString => negb fresh
  | String c s' =>
      if Ascii.eqb c "/" then negb fresh && plain_path true s'
      else is_lower_or_digit c && plain_path false s'
  end.

(** A host and a path: labels of lower-case letters, none empty,
    separated by dots; [fresh] says that a label is about to start. *)
Fixpoint plain_host_path (fresh : bool) (s : string) : bool :=
  match s with
  | EmptyString => false
  | String c s' =>
      if Ascii.eqb c "/" then negb fresh && plain_path true s'
      else if Ascii.eqb c "." then negb fresh && plain_host_path true s'
      else is_lower c && plain_host_path false s'
  end.

Definition plain_address (text : string) : bool :=
  if prefix "https://" text
  then plain_host_path true (substring 8 (String.length text - 8) text)
  else false.

(** The constructor [new URL] on the addresses in plain form.  On every
    other text it is not the constructor of the platform: it answers with
    the [TypeError] the platform has for a text that is no URL.  It stands
    for the platform where a statement is about one plain address; the
    statements about every base URL take the constructor as a parameter. *)
Definition URL_plain (text : string) : result Request.t :=
  if plain_address text
  then Ok {| Request.href := text; Request.searchParams := [] |}
  else Throw TypeError.

(** ** The response *)

(** What the code reads of a [Response]: [ok], [statusText] and what
    [json()] resolves to, [None] when the body is not JSON text and
    [json()] rejects. *)
Module Response.
Record t : Type := { ok : bool; statusText : string; json : option value }.
End Response.

Definition FALLBACK_MESSAGE : string := "Unable to fetch vehicles from Marketcheck.".

Definition safeParseError (response : Response.t) : option string :=
  match Response.json response with
  | Some body =>
      if typeof_object body && Boolean body && has_property "message" body
      then Some (String_ (property "message" body))
      else None
  | None =>
      if String_truthy (Response.statusText response)
      then Some (Response.statusText response)
      else None
  end.

(** ** Sorting *)

(** [typeof x === 'number'] on an optional number; [NaN] is a number. *)
Definition typeof_number (x : option number) : bool :=
  match x with
  | Some _ => true
  | None => false
  end.

(** [a - b], [undefined] converting to [NaN]. *)
Definition minus (a b : option number) : number :=
  match a, b with
  | Some x, Some y => Number_sub x y
  | _, _ => NaN
  end.

Definition compareWithMissing (aValue bValue : option number)
    (direction : SortDirection) : number :=
  let aHasValue := typeof_number aValue in
  let bHasValue := typeof_number bValue in
  if negb aHasValue && negb bHasValue then Num 0
  else if negb aHasValue then
    match direction with asc => Num 1 | desc => Num (-1) end
  else if negb bHasValue then
    match direction with asc => Num (-1) | desc => Num 1 end
  else
    match direction with
    | asc => minus aValue bValue
    | desc => minus bValue aValue
    end.

Definition comparators (sortBy : SortOption)
  : option (VehicleListing.t -> VehicleListing.t -> number) :=
  match sortBy with
  | priceAsc => Some (fun a b =>
      compareWithMissing (VehicleListing.price a) (VehicleListing.price b) asc)
  | priceDesc => Some (fun a b =>
      compareWithMissing (VehicleListing.price a) (VehicleListing.price b) desc)
  | distance => Some (fun a b =>
      compareWithMissing (VehicleListing.distance a) (VehicleListing.distance b) asc)
  | mileageAsc => Some (fun a b =>
      compareWithMissing (VehicleListing.mileage a) (VehicleListing.mileage b) asc)
  end.

(** The sign test sorting makes on a comparator result: [v > 0], with
    [NaN] read as zero. *)
Definition positive (v : number) : bool :=
  match v with
  | Num z => 0 <? z
  | NaN => false
  end.

Section Sort.
Context {A : Type} (comparefn : A -> A -> number).

(** [x] goes in front of the first element it is not greater than. *)
Fixpoint insert (x : A) (l : list A) : list A :=
  match l with
  | [] => [x]
  | y :: l' => if positive (comparefn x y) then y :: insert x l' else x :: l
  end.

Definition Array_sort (l : list A) : list A := fold_right insert [] l.
End Sort.

Definition sortListings (listings : list VehicleListing.t) (sortBy : SortOption)
  : list VehicleListing.t :=
  let sorted := listings in
  match comparators sortBy with
  | Some comparator => Array_sort comparator sorted
  | None => sorted
  end.

(** ** Reading an element of [listings] at the declared type

    The cast of the payload is unchecked.  A field is read at the type
    [MarketcheckListing] declares for it, a field that is missing or
    [null] reading as absent.  This is what the code sees on an element
    that is as declared ([listing_as_declared] below); on a field of
    another type the code goes on with the value as it is, which the
    typed record does not hold, so that what is said of the listings
    returned is said for elements as declared. *)

Definition read_string (v : value) : option string :=
  match v with Str s => Some s | _ => None end.

Definition read_number (v : value) : option number :=
  match v with Number n => Some n | _ => None end.

Fixpoint read_strings (l : list value) : option (list string) :=
  match l with
  | [] => Some []
  | Str s :: l' => option_map (cons s) (read_strings l')
  | _ :: _ => None
  end.

Definition read_media (v : value) : option Media.t :=
  match v with
  | Object _ =>
      Some {| Media.photo_links :=
                match property "photo_links" v with
                | Array l => read_strings l
                | _ => None
                end |}
  | _ => None
  end.

Definition read_dealer (v : value) : option Dealer.t :=
  match v with
  | Object _ =>
      Some {| Dealer.name := read_string (property "name" v);
              Dealer.city := read_string (property "city" v);
              Dealer.state := read_string (property "state" v);
              Dealer.phone := read_string (property "phone" v);
              Dealer.website := read_string (property "website" v) |}
  | _ => None
  end.

Definition read_build (v : value) : option Build.t :=
  match v with
  | Object _ =>
      Some {| Build.year := read_number (property "year" v);
              Build.make := read_string (property "make" v);
              Build.model := read_string (property "model" v);
              Build.trim := read_string (property "trim" v);
              Build.body_type := read_string (property "body_type" v);
              Build.transmission := read_string (property "transmission" v);
              Build.drivetrain := read_string (property "drivetrain" v);
              Build.fuel_type := read_string (property "fuel_type" v) |}
  | _ => None
  end.

Definition read_listing (v : value) : MarketcheckListing.t :=
  {| MarketcheckListing.id := read_string (property "id" v);
     MarketcheckListing.vin := read_string (property "vin" v);
     MarketcheckListing.heading := read_string (property "heading" v);
     MarketcheckListing.price := read_number (property "price" v);
     MarketcheckListing.miles := read_number (property "miles" v);
     MarketcheckListing.mileage := read_number (property "mileage" v);
     MarketcheckListing.dist := read_number (property "dist" v);
     MarketcheckListing.distance := read_number (property "distance" v);
     MarketcheckListing.exterior_color := read_string (property "exterior_color" v);
     MarketcheckListing.interior_color := read_string (property "interior_color" v);
     MarketcheckListing.media := read_media (property "media" v);
     MarketcheckListing.dealer := read_dealer (property "dealer" v);
     MarketcheckListing.build := read_build (property "build" v);
     MarketcheckListing.vdp_url := read_string (property "vdp_url" v);
     MarketcheckListing.ref_price := read_number (property "ref_price" v);
     MarketcheckListing.scraped_listing_url :=
       read_string (property "scraped_listing_url" v);
     MarketcheckListing.website := read_string (property "website" v) |}.

(** ** Computations that draw tokens and may throw *)

Definition Run (A : Type) : Type := nat -> result A * nat.

Definition ret {A : Type} (a : A) : Run A := fun k => (Ok a, k).

Definition throw {A : Type} (e : exn) : Run A := fun k => (Throw e, k).

Definition bind {A B : Type} (m : Run A) (f : A -> Run B) : Run B :=
  fun k =>
    match m k with
    | (Ok a, k') => f a k'
    | (Throw e, k') => (Throw e, k')
    end.

Notation "x <- m ;; f" := (bind m (fun x => f))
  (at level 61, m at next level, right associativity).

Fixpoint Array_map {A B : Type} (f : A -> Run B) (l : list A) : Run (list B) :=
  match l with
  | [] => ret []
  | x :: l' => y <- f x ;; ys <- Array_map f l' ;; ret (y :: ys)
  end.

Section Service.

(** The constructor [new URL] of the platform. *)
Variable URL_new : string -> result Request.t.

(** The token source behind [Math.random().toString(36).slice(2)]: the
    token the [k]-th call returns. *)
Variable random_token : nat -> string.

(** The answer of the network to a request. *)
Variable fetch : Request.t -> Response.t.

Definition cryptoRandomId : Run string :=
  fun k => (Ok (random_token k), S k).

(** [listing.id ?? listing.vin ?? cryptoRandomId()]: the generator runs
    only when the two fields are absent. *)
Definition listing_id (listing : MarketcheckListing.t) : Run string :=
  match MarketcheckListing.id listing ?? MarketcheckListing.vin listing with
  | Some s => ret s
  | None => cryptoRandomId
  end.

Definition computedTitle (listing : MarketcheckListing.t) (build : Build.t)
  : string :=
  MarketcheckListing.heading listing ?!
    trim (Array_join " "
            (filter Boolean
               [of_number (Build.year build); of_string (Build.make build);
                of_string (Build.model build); of_string (Build.trim build)])).

Definition normalizeListing (listing : MarketcheckListing.t)
  : Run VehicleListing.t :=
  let build := MarketcheckListing.build listing ?! Build.empty in
  let dealer := MarketcheckListing.dealer listing ?! Dealer.empty in
  id <- listing_id listing ;;
  let computedTitle := computedTitle listing build in
  ret {| VehicleListing.id := id;
         VehicleListing.title :=
           if String_truthy computedTitle then computedTitle else "Used Vehicle";
         VehicleListing.price :=
           MarketcheckListing.price listing ?? MarketcheckListing.ref_price listing;
         VehicleListing.mileage :=
           MarketcheckListing.miles listing ?? MarketcheckListing.mileage listing;
         VehicleListing.distance :=
           MarketcheckListing.dist listing ?? MarketcheckListing.distance listing;
         VehicleListing.exteriorColor := MarketcheckListing.exterior_color listing;
         VehicleListing.interiorColor := MarketcheckListing.interior_color listing;
         VehicleListing.year := Build.year build;
         VehicleListing.make := Build.make build;
         VehicleListing.model := Build.model build;
         VehicleListing.trim := Build.trim build;
         VehicleListing.bodyType := Build.body_type build;
         VehicleListing.transmission := Build.transmission build;
         VehicleListing.drivetrain := Build.drivetrain build;
         VehicleListing.fuelType := Build.fuel_type build;
         VehicleListing.dealerName := Dealer.name dealer;
         VehicleListing.dealerCity := Dealer.city dealer;
         VehicleListing.dealerState := Dealer.state dealer;
         VehicleListing.dealerPhone := Dealer.phone dealer;
         VehicleListing.dealerWebsite :=
           Dealer.website dealer ?? MarketcheckListing.website listing
             ?? MarketcheckListing.scraped_listing_url listing;
         VehicleListing.listingUrl :=
           MarketcheckListing.vdp_url listing
             ?? MarketcheckListing.scraped_listing_url listing
             ?? Dealer.website dealer;
         VehicleListing.imageUrl :=
           match MarketcheckListing.media listing with
           | Some media =>
               match Media.photo_links media with
               | Some links => hd_error links
               | None => None
               end
           | None => None
           end |}.

(** [normalizeListing] on an element of the payload: reading a property
    of [null] throws. *)
Definition normalizeElement (e : value) : Run VehicleListing.t :=
  match e with
  | Null | Undefined => throw TypeError
  | _ => normalizeListing (read_listing e)
  end.

(** Lines 104 to 114 of [searchVehicles]. *)
Definition handleResponse (response : Response.t) (sortBy : SortOption)
  : Run (list VehicleListing.t) :=
  if negb (Response.ok response) then
    let errorBody := safeParseError response in
    throw (Error (errorBody ?! FALLBACK_MESSAGE))
  else
    match Response.json response with
    | None => throw SyntaxError
    | Some Null | Some Undefined => throw TypeError
    | Some payload =>
        let listings :=
          if Array_isArray (property "listings" payload)
          then elements_of (property "listings" payload)
          else [] in
        normalized <- Array_map normalizeElement listings ;;
        ret (sortListings normalized sortBy)
    end.

Definition searchVehicles (cfg : AppConfig.t) (criteria : SearchCriteria.t)
  : Run (list VehicleListing.t) :=
  match searchRequest URL_new cfg criteria with
  | Throw e => throw e
  | Ok request =>
      handleResponse (fetch request) (SearchCriteria.sortBy criteria)
  end.

End Service.

(** ** Descriptions the statements are written with *)

(** The remote sort pair of each option, as the table of the
    specification gives it. *)
Definition remote_sort (sortBy : SortOption) : string * string :=
  match sortBy with
  | priceAsc => ("price", "asc")
  | priceDesc => ("price", "desc")
  | distance => ("distance", "asc")
  | mileageAsc => ("miles", "asc")
  end.





(** A range parameter as the code sets it: present when one of the bounds
    is a number other than zero (and other than [NaN]). *)
Definition range_param (lo hi : option number) (dlo dhi : string) : option string :=
  if truthy_num lo || truthy_num hi then Some (range_text lo hi dlo dhi) else None.

(** The words of a composed title: the year when it is a number other
    than zero, then the make, the model and the trim that are not empty. *)
Definition word_of_number (x : option number) : list string :=
  match x with
  | Some (Num z) => if z =? 0 then [] else [Number_toString (Num z)]
  | Some NaN | None => []
  end.

Definition word_of_string (x : option string) : list string :=
  match x with
  | Some (String c r) => [String c r]
  | Some EmptyString | None => []
  end.

Definition build_words (listing : MarketcheckListing.t) : list string :=
  match MarketcheckListing.build listing with
  | Some build =>
      word_of_number (Build.year build) ++ word_of_string (Build.make build)
        ++ word_of_string (Build.model build) ++ word_of_string (Build.trim build)
  | None => []
  end.

(** Two listings that agree on every field but the identifier. *)
Definition equal_but_id (a b : VehicleListing.t) : Prop :=
  VehicleListing.title a = VehicleListing.title b /\
  VehicleListing.price a = VehicleListing.price b /\
  VehicleListing.mileage a = VehicleListing.mileage b /\
  VehicleListing.distance a = VehicleListing.distance b /\
  VehicleListing.exteriorColor a = VehicleListing.exteriorColor b /\
  VehicleListing.interiorColor a = VehicleListing.interiorColor b /\
  VehicleListing.year a = VehicleListing.year b /\
  VehicleListing.make a = VehicleListing.make b /\
  VehicleListing.model a = VehicleListing.model b /\
  VehicleListing.trim a = VehicleListing.trim b /\
  VehicleListing.bodyType a = VehicleListing.bodyType b /\
  VehicleListing.transmission a = VehicleListing.transmission b /\
  VehicleListing.drivetrain a = VehicleListing.drivetrain b /\
  VehicleListing.fuelType a = VehicleListing.fuelType b /\
  VehicleListing.dealerName a = VehicleListing.dealerName b /\
  VehicleListing.dealerCity a = VehicleListing.dealerCity b /\
  VehicleListing.dealerState a = VehicleListing.dealerState b /\
  VehicleListing.dealerPhone a = VehicleListing.dealerPhone b /\
  VehicleListing.dealerWebsite a = VehicleListing.dealerWebsite b /\
  VehicleListing.listingUrl a = VehicleListing.listingUrl b /\
  VehicleListing.imageUrl a = VehicleListing.imageUrl b.

(** The field a sort option looks at, and its direction. *)
Definition sort_key (sortBy : SortOption) (v : VehicleListing.t) : option number :=
  match sortBy with
  | priceAsc | priceDesc => VehicleListing.price v
  | distance => VehicleListing.distance v
  | mileageAsc => VehicleListing.mileage v
  end.

Definition direction_of (sortBy : SortOption) : SortDirection :=
  match sortBy with
  | priceDesc => desc
  | priceAsc | distance | mileageAsc => asc
  end.

(** [a] may stand in front of [b]: numbers go up in the ascending
    direction and down in the descending one; a missing value stands
    behind the numbers in the ascending direction and in front of them in
    the descending one. *)
Definition in_order (d : SortDirection) (a b : option number) : Prop :=
  match a, b with
  | None, None => True
  | Some _, None => d = asc
  | None, Some _ => d = desc
  | Some (Num x), Some (Num y) =>
      match d with
      | asc => x <= y
      | desc => y <= x
      end
  | Some _, Some _ => False
  end.

Definition is_number (x : option number) : Prop := x <> Some NaN.

(** [v == null]: the two values whose properties cannot be read. *)
Definition nullish_value (v : value) : bool :=
  match v with
  | Null | Undefined => true
  | _ => false
  end.

(** The elements [searchVehicles] normalizes, for a payload it can read. *)
Definition listings_of (payload : value) : list value :=
  if Array_isArray (property "listings" payload)
  then elements_of (property "listings" payload)
  else [].

(** An element that has neither id nor vin, and so takes a token. *)
Definition without_id (e : value) : bool :=
  match MarketcheckListing.id (read_listing e) ?? MarketcheckListing.vin (read_listing e) with
  | Some _ => false
  | None => true
  end.

(** An element as [MarketcheckListing] declares it: an object whose
    fields, where they are there and not [null], have the declared type,
    nested objects included. *)
Definition string_or_absent (v : value) : bool :=
  match v with
  | Undefined | Null | Str _ => true
  | _ => false
  end.

Definition number_or_absent (v : value) : bool :=
  match v with
  | Undefined | Null | Number _ => true
  | _ => false
  end.

Definition strings_or_absent (v : value) : bool :=
  match v with
  | Undefined | Null => true
  | Array l => forallb (fun x => match x with Str _ => true | _ => false end) l
  | _ => false
  end.

Definition object_or_absent (fields : value -> bool) (v : value) : bool :=
  match v with
  | Undefined | Null => true
  | Object _ => fields v
  | _ => false
  end.

Definition listing_as_declared (e : value) : bool :=
  match e with
  | Object _ =>
      forallb (fun name => string_or_absent (property name e))
        ["id"; "vin"; "heading"; "exterior_color"; "interior_color"; "vdp_url";
         "scraped_listing_url"; "website"]
      && forallb (fun name => number_or_absent (property name e))
           ["price"; "miles"; "mileage"; "dist"; "distance"; "ref_price"]
      && object_or_absent (fun m => strings_or_absent (property "photo_links" m))
           (property "media" e)
      && object_or_absent
           (fun d => forallb (fun name => string_or_absent (property name d))
                       ["name"; "city"; "state"; "phone"; "website"])
           (property "dealer" e)
      && object_or_absent
           (fun b => number_or_absent (property "year" b)
                     && forallb (fun name => string_or_absent (property name b))
                          ["make"; "model"; "trim"; "body_type"; "transmission";
                           "drivetrain"; "fuel_type"])
           (property "build" e)
  | _ => false
  end.

(** The names [searchVehicles] sets on the query. *)
Definition PARAMETER_NAMES : list string :=
  ["api_key"; "latitude"; "longitude"; "radius"; "car_type"; "start"; "rows";
   "make"; "model"; "exterior_color"; "year_range"; "miles_range"; "price_range";
   "sort_by"; "sort_order"].


(** Equality of two sort keys. *)
Definition number_eqb (a b : number) : bool :=
  match a, b with
  | Num x, Num y => x =? y
  | NaN, NaN => true
  | _, _ => false
  end.

Definition key_eqb (a b : option number) : bool :=
  match a, b with
  | Some x, Some y => number_eqb x y
  | None, None => true
  | _, _ => false
  end.

(** One optional parameter, as a list of pairs. *)
Definition optional (name : string) (sent : bool) (v : string) : URLSearchParams :=
  if sent then [(name, v)] else [].

(** ** components/VehicleCard.tsx

    A card is kept as what it shows: the link around the picture, the
    picture, the title, the labels and the buttons.  The number formats of
    the platform ([Intl.NumberFormat], [toFixed]) are parameters. *)

(** [{cond && x}]: the element when the condition holds. *)
Definition jsx_and {A : Type} (cond : bool) (x : A) : list A :=
  if cond then [x] else [].

(** A character the pattern [[^0-9+]] leaves in place. *)
Definition is_dialable (c : ascii) : bool :=
  let n := Z.of_N (N_of_ascii c) in
  ((48 <=? n) && (n <=? 57)) || (n =? 43).

(** [s.replace(/[^0-9+]/g, '')] *)
Fixpoint remove_undialable (s : string) : string :=
  match s with
  | EmptyString => EmptyString
  | String c s' =>
      if is_dialable c then String c (remove_undialable s') else remove_undialable s'
  end.

Fixpoint string_forallb (p : ascii -> bool) (s : string) : bool :=
  match s with
  | EmptyString => true
  | String c s' => p c && string_forallb p s'
  end.

Module CardView.
Record t : Type := {
  mediaLink : option string;
  mediaClass : string;
  image : option string;
  title : string;
  priceLabel : string;
  meta : list string;
  dealerName : option string;
  dealerLocation : option string;
  dealerContact : option (string * string);
  actions : list (string * string)
}.
End CardView.

(** [{x && <li>label{x}</li>}] on an optional string. *)
Definition labelled (label : string) (x : option string) : list string :=
  jsx_and (truthy_str x) (label ++ (x ?! "")).

Section Card.
Variable currencyFormat : number -> string.
Variable numberFormat : number -> string.
Variable toFixed1 : number -> string.

Definition VehicleCard (vehicle : VehicleListing.t) : CardView.t :=
  let priceLabel :=
    match VehicleListing.price vehicle with
    | Some price => currencyFormat price
    | None => "Call for price"
    end in
  let mileageLabel :=
    match VehicleListing.mileage vehicle with
    | Some mileage => Some (numberFormat mileage ++ " miles")
    | None => None
    end in
  let distanceLabel :=
    match VehicleListing.distance vehicle with
    | Some dist => Some (toFixed1 dist ++ " miles away")
    | None => None
    end in
  let primaryLink :=
    VehicleListing.listingUrl vehicle ?? VehicleListing.dealerWebsite vehicle in
  let mediaClass :=
    if truthy_str (VehicleListing.imageUrl vehicle) then "vehicle-card__media"
    else "vehicle-card__media vehicle-card__media--placeholder" in
  {| CardView.mediaLink := if truthy_str primaryLink then primaryLink else None;
     CardView.mediaClass := mediaClass;
     CardView.image :=
       if truthy_str (VehicleListing.imageUrl vehicle)
       then VehicleListing.imageUrl vehicle else None;
     CardView.title := VehicleListing.title vehicle;
     CardView.priceLabel := priceLabel;
     CardView.meta :=
       (labelled "" mileageLabel ++ labelled "" distanceLabel
        ++ labelled "Exterior: " (VehicleListing.exteriorColor vehicle)
        ++ labelled "Interior: " (VehicleListing.interiorColor vehicle)
        ++ labelled "Body: " (VehicleListing.bodyType vehicle)
        ++ labelled "Transmission: " (VehicleListing.transmission vehicle)
        ++ labelled "Drivetrain: " (VehicleListing.drivetrain vehicle)
        ++ labelled "Fuel: " (VehicleListing.fuelType vehicle))%list;
     CardView.dealerName :=
       if truthy_str (VehicleListing.dealerName vehicle)
       then VehicleListing.dealerName vehicle else None;
     CardView.dealerLocation :=
       if truthy_str (VehicleListing.dealerCity vehicle)
          || truthy_str (VehicleListing.dealerState vehicle)
       then Some (Array_join ", "
                    (filter Boolean
                       [of_string (VehicleListing.dealerCity vehicle);
                        of_string (VehicleListing.dealerState vehicle)]))
       else None;
     CardView.dealerContact :=
       match VehicleListing.dealerPhone vehicle with
       | Some dealerPhone =>
           if String_truthy dealerPhone
           then Some ("tel:" ++ remove_undialable dealerPhone, "Call " ++ dealerPhone)
           else None
       | None => None
       end;
     CardView.actions :=
       (jsx_and (truthy_str (VehicleListing.listingUrl vehicle))
          ("View Listing", VehicleListing.listingUrl vehicle ?! "")
        ++ jsx_and (truthy_str (VehicleListing.dealerWebsite vehicle))
             ("Dealer Website", VehicleListing.dealerWebsite vehicle ?! ""))%list |}.

(** components/VehicleResults.tsx: one card for each vehicle. *)
Definition VehicleResults (vehicles : list VehicleListing.t) : list CardView.t :=
  map VehicleCard vehicles.

End Card.

(** ** App.tsx *)

Module Status.
Inductive t : Type := idle | loading | success | error.
Definition eqb (a b : t) : bool :=
  match a, b with
  | idle, idle | loading, loading | success, success | error, error => true
  | _, _ => false
  end.
End Status.

Module AppState.
Record t : Type := {
  vehicles : list VehicleListing.t;
  status : Status.t;
  errorMessage : option string;
  lastSearch : option SearchCriteria.t
}.
Definition initial : t :=
  {| vehicles := []; status := Status.idle; errorMessage := None; lastSearch := None |}.
End AppState.

Definition formatSortLabel (sortBy : SortOption) : string :=
  match sortBy with
  | priceAsc => "price (lowest to highest)"
  | priceDesc => "price (highest to lowest)"
  | distance => "distance from location"
  | mileageAsc => "mileage (lowest to highest)"
  end.

Inductive ResultsBody : Type :=
| VehicleGrid (cards : list CardView.t)
| InfoAlert (message : string).

Inductive Block : Type :=
| SpinnerRow (label : string)
| ErrorAlert (message : string)
| ResultsSection (summary : option string) (body : ResultsBody).

Module AppView.
Record t : Type := { isSearching : bool; blocks : list Block }.
End AppView.

Definition NO_MATCH_MESSAGE : string :=
  "No automobiles matched your filters. Try broadening the search radius or adjusting your filters.".

Section App.
Variable URL_new : string -> result Request.t.
Variable random_token : nat -> string.
Variable fetch : Request.t -> Response.t.
Variable cfg : AppConfig.t.

(** The messages the engine gives to its own errors. *)
Variable type_error_text : string.
Variable syntax_error_text : string.

Variable currencyFormat : number -> string.
Variable numberFormat : number -> string.
Variable toFixed1 : number -> string.

(** [error.message]; every exception of the search is an [Error]. *)
Definition message_of (e : exn) : string :=
  match e with
  | Error message => message
  | TypeError => type_error_text
  | SyntaxError => syntax_error_text
  end.

(** The state while the search is awaited. *)
Definition searching (st : AppState.t) (criteria : SearchCriteria.t) : AppState.t :=
  {| AppState.vehicles := AppState.vehicles st;
     AppState.status := Status.loading;
     AppState.errorMessage := None;
     AppState.lastSearch := Some criteria |}.

(** The state once [handleSearch] has run to its end. *)
Definition handleSearch (st : AppState.t) (criteria : SearchCriteria.t)
  : nat -> AppState.t * nat :=
  fun k =>
    let st := searching st criteria in
    match searchVehicles URL_new random_token fetch cfg criteria k with
    | (Ok listings, k') =>
        ({| AppState.vehicles := listings;
            AppState.status := Status.success;
            AppState.errorMessage := AppState.errorMessage st;
            AppState.lastSearch := AppState.lastSearch st |}, k')
    | (Throw e, k') =>
        ({| AppState.vehicles := [];
            AppState.status := Status.error;
            AppState.errorMessage := Some (message_of e);
            AppState.lastSearch := AppState.lastSearch st |}, k')
    end.

Definition results_summary (lastSearch : SearchCriteria.t) : string :=
  "Showing vehicles within " ++ Number_toString (SearchCriteria.radius lastSearch)
  ++ " miles of " ++ SelectedLocation.city (SearchCriteria.location lastSearch)
  ++ ", " ++ SelectedLocation.state (SearchCriteria.location lastSearch)
  ++ " sorted by" ++ " " ++ formatSortLabel (SearchCriteria.sortBy lastSearch) ++ ".".

(** What [App] renders under the header and the form. *)
Definition render (st : AppState.t) : AppView.t :=
  {| AppView.isSearching := Status.eqb (AppState.status st) Status.loading;
     AppView.blocks :=
       (jsx_and (Status.eqb (AppState.status st) Status.loading)
          (SpinnerRow "Finding your Dream Car")
        ++ jsx_and (Status.eqb (AppState.status st) Status.error
                    && truthy_str (AppState.errorMessage st))
             (ErrorAlert (AppState.errorMessage st ?! ""))
        ++ jsx_and (Status.eqb (AppState.status st) Status.success)
             (ResultsSection
                (option_map results_summary (AppState.lastSearch st))
                (if (0 <? Z.of_nat (length (AppState.vehicles st)))
                 then VehicleGrid
                        (VehicleResults currencyFormat numberFormat toFixed1
                           (AppState.vehicles st))
                 else InfoAlert NO_MATCH_MESSAGE)))%list |}.

End App.

(** ** Sample data *)

Definition austin : SelectedLocation.t :=
  {| SelectedLocation.description := "Austin, TX, USA";
     SelectedLocation.city := "Austin";
     SelectedLocation.state := "TX";
     SelectedLocation.lat := Num 30;
     SelectedLocation.lng := Num (-97) |}.

Definition criteria_with (make : option string)
    (minMiles maxMiles minPrice maxPrice : option number) (sortBy : SortOption)
  : SearchCriteria.t :=
  {| SearchCriteria.location := austin;
     SearchCriteria.radius := Num 25;
     SearchCriteria.make := make;
     SearchCriteria.model := None;
     SearchCriteria.color := None;
     SearchCriteria.minYear := None;
     SearchCriteria.maxYear := None;
     SearchCriteria.minMiles := minMiles;
     SearchCriteria.maxMiles := maxMiles;
     SearchCriteria.minPrice := minPrice;
     SearchCriteria.maxPrice := maxPrice;
     SearchCriteria.sortBy := sortBy |}.

Definition plain_criteria : SearchCriteria.t :=
  criteria_with None None None None None priceAsc.

Definition env_with (rows : option string) : Env.t :=
  {| Env.VITE_GOOGLE_MAPS_API_KEY := None;
     Env.VITE_MARKETCHECK_API_KEY := Some "KEY";
     Env.VITE_MARKETCHECK_BASE_URL := None;
     Env.VITE_RESULTS_PER_PAGE := rows |}.

Definition respond (ok : bool) (statusText : string) (json : option value)
  : Request.t -> Response.t :=
  fun _ => {| Response.ok := ok; Response.statusText := statusText;
              Response.json := json |}.

Definition listing_with (id vin heading : option string) (build : option Build.t)
  : MarketcheckListing.t :=
  {| MarketcheckListing.id := id;
     MarketcheckListing.vin := vin;
     MarketcheckListing.heading := heading;
     MarketcheckListing.price := None;
     MarketcheckListing.miles := None;
     MarketcheckListing.mileage := None;
     MarketcheckListing.dist := None;
     MarketcheckListing.distance := None;
     MarketcheckListing.exterior_color := None;
     MarketcheckListing.interior_color := None;
     MarketcheckListing.media := None;
     MarketcheckListing.dealer := None;
     MarketcheckListing.build := build;
     MarketcheckListing.vdp_url := None;
     MarketcheckListing.ref_price := None;
     MarketcheckListing.scraped_listing_url := None;
     MarketcheckListing.website := None |}.

Definition honda_civic_2020 : Build.t :=
  {| Build.year := Some (Num 2020);
     Build.make := Some "Honda";
     Build.model := Some "Civic";
     Build.trim := None;
     Build.body_type := None;
     Build.transmission := None;
     Build.drivetrain := None;
     Build.fuel_type := None |}.

Definition priced (id : string) (price : option number) : VehicleListing.t :=
  {| VehicleListing.id := id;
     VehicleListing.title := "Used Vehicle";
     VehicleListing.price := price;
     VehicleListing.mileage := None;
     VehicleListing.distance := None;
     VehicleListing.exteriorColor := None;
     VehicleListing.interiorColor := None;
     VehicleListing.year := None;
     VehicleListing.make := None;
     VehicleListing.model := None;
     VehicleListing.trim := None;
     VehicleListing.bodyType := None;
     VehicleListing.transmission := None;
     VehicleListing.drivetrain := None;
     VehicleListing.fuelType := None;
     VehicleListing.dealerName := None;
     VehicleListing.dealerCity := None;
     VehicleListing.dealerState := None;
     VehicleListing.dealerPhone := None;
     VehicleListing.dealerWebsite := None;
     VehicleListing.listingUrl := None;
     VehicleListing.imageUrl := None |}.

Definition three_prices : list VehicleListing.t :=
  [priced "a" (Some (Num 30000)); priced "b" None; priced "c" (Some (Num 10000))].

Example toString_20000 : Number_toString (Num 20000) = "20000".
Proof. reflexivity. Qed.
Example toString_neg : Number_toString (Num (-5)) = "-5".
Proof. reflexivity. Qed.
Example toString_0 : Number_toString (Num 0) = "0".
Proof. reflexivity. Qed.
Example parseInt_24 : Number_parseInt "24" = Num 24.
Proof. reflexivity. Qed.
Example parseInt_junk : Number_parseInt "abc" = NaN.
Proof. reflexivity. Qed.
Example parseInt_prefix : Number_parseInt "  -12.7 rows" = Num (-12).
Proof. reflexivity. Qed.
Example trim_ex : trim "  a b  " = "a b".
Proof. reflexivity. Qed.
Example strip_ex : strip_trailing_slash "https://api.marketcheck.com/v2/" = "https://api.marketcheck.com/v2".
Proof. reflexivity. Qed.

(** ** URLSearchParams *)

Lemma get_delete_other (q : URLSearchParams) (k k' : string) :
  String.eqb k' k = false -> get (delete q k') k = get q k.
Proof.
  intros Hk. induction q as [|[k0 v0] q IH]; simpl; [reflexivity|].
  destruct (String.eqb k0 k') eqn:E0; simpl.
  - apply String.eqb_eq in E0. subst k0. rewrite Hk. exact IH.
  - destruct (String.eqb k0 k); [reflexivity | exact IH].
Qed.

Lemma get_set_same (q : URLSearchParams) (k v : string) :
  get (set q k v) k = Some v.
Proof.
  induction q as [|[k0 v0] q IH]; simpl.
  - now rewrite String.eqb_refl.
  - destruct (String.eqb k0 k) eqn:E0; simpl.
    + now rewrite String.eqb_refl.
    + now rewrite E0.
Qed.

Lemma get_set_other (q : URLSearchParams) (k k' v : string) :
  String.eqb k' k = false -> get (set q k' v) k = get q k.
Proof.
  intros Hk. induction q as [|[k0 v0] q IH]; simpl.
  - now rewrite Hk.
  - destruct (String.eqb k0 k') eqn:E0; simpl.
    + apply String.eqb_eq in E0. subst k0. rewrite Hk.
      now apply get_delete_other.
    + destruct (String.eqb k0 k); [reflexivity | exact IH].
Qed.

Lemma get_cond_other (b : bool) (q : URLSearchParams) (k k' v : string) :
  String.eqb k' k = false -> get (if b then set q k' v else q) k = get q k.
Proof. intros Hk. destruct b; [now apply get_set_other | reflexivity]. Qed.

Lemma get_cond_same (b : bool) (q : URLSearchParams) (k v : string) :
  get (if b then set q k v else q) k = if b then Some v else get q k.
Proof. destruct b; [apply get_set_same | reflexivity]. Qed.

(** Reading one parameter of a query built by a chain of [set]s. *)
Ltac read_param :=
  repeat first
    [ rewrite get_set_same
    | rewrite get_cond_same
    | rewrite get_set_other by reflexivity
    | rewrite get_cond_other by reflexivity ].

Lemma SORT_MAPPING_remote (sortBy : SortOption) :
  exists cfg o,
    SORT_MAPPING sortBy = Some cfg /\
    SortConfig.sortOrder cfg = Some o /\
    (SortConfig.sortBy cfg, SortDirection_string o) = remote_sort sortBy.
Proof.
  destruct sortBy; simpl; eexists; eexists; repeat split; reflexivity.
Qed.

(** The sort parameters are the last ones set; every other name reads
    through them. *)
Lemma get_through_sort (q : URLSearchParams) (sortBy : SortOption) (k : string) :
  String.eqb "sort_by" k = false -> String.eqb "sort_order" k = false ->
  get (match SORT_MAPPING sortBy with
       | Some sortConfig =>
           let q := set q "sort_by" (SortConfig.sortBy sortConfig) in
           match SortConfig.sortOrder sortConfig with
           | Some o => set q "sort_order" (SortDirection_string o)
           | None => q
           end
       | None => q
       end) k = get q k.
Proof.
  intros H1 H2. destruct sortBy; cbn -[set get];
    rewrite !get_set_other by assumption; reflexivity.
Qed.

Section Params.
Variables (q0 : URLSearchParams) (apiKey : string).
Variables (cfg : AppConfig.t) (criteria : SearchCriteria.t).

Local Abbreviation q := (buildSearchParams q0 apiKey cfg criteria).

Lemma param_api_key : get q "api_key" = Some apiKey.
Proof.
  unfold buildSearchParams. cbv zeta.
  rewrite get_through_sort by reflexivity. read_param. reflexivity.
Qed.

Lemma param_latitude :
  get q "latitude" =
  Some (Number_toString (SelectedLocation.lat (SearchCriteria.location criteria))).
Proof.
  unfold buildSearchParams. cbv zeta.
  rewrite get_through_sort by reflexivity. read_param. reflexivity.
Qed.

Lemma param_longitude :
  get q "longitude" =
  Some (Number_toString (SelectedLocation.lng (SearchCriteria.location criteria))).
Proof.
  unfold buildSearchParams. cbv zeta.
  rewrite get_through_sort by reflexivity. read_param. reflexivity.
Qed.

Lemma param_radius :
  get q "radius" = Some (Number_toString (SearchCriteria.radius criteria)).
Proof.
  unfold buildSearchParams. cbv zeta.
  rewrite get_through_sort by reflexivity. read_param. reflexivity.
Qed.

Lemma param_car_type : get q "car_type" = Some "used".
Proof.
  unfold buildSearchParams. cbv zeta.
  rewrite get_through_sort by reflexivity. read_param. reflexivity.
Qed.

Lemma param_start : get q "start" = Some "0".
Proof.
  unfold buildSearchParams. cbv zeta.
  rewrite get_through_sort by reflexivity. read_param. reflexivity.
Qed.

Lemma param_rows :
  get q "rows" =
  Some (Number_toString
          (Math_max (Num 1) (Math_min (AppConfig.resultsPerPage cfg) (Num 50)))).
Proof.
  unfold buildSearchParams. cbv zeta.
  rewrite get_through_sort by reflexivity. read_param. reflexivity.
Qed.

(** An optional parameter that is not set keeps what the address of the
    URL came with. *)
Lemma param_make :
  get q "make" =
  if truthy_str (SearchCriteria.make criteria) then SearchCriteria.make criteria
  else get q0 "make".
Proof.
  unfold buildSearchParams. cbv zeta.
  rewrite get_through_sort by reflexivity. read_param.
  destruct (SearchCriteria.make criteria) as [[|c r]|]; reflexivity.
Qed.

Lemma param_model :
  get q "model" =
  if truthy_str (SearchCriteria.model criteria) then SearchCriteria.model criteria
  else get q0 "model".
Proof.
  unfold buildSearchParams. cbv zeta.
  rewrite get_through_sort by reflexivity. read_param.
  destruct (SearchCriteria.model criteria) as [[|c r]|]; reflexivity.
Qed.

Lemma param_exterior_color :
  get q "exterior_color" =
  if truthy_str (SearchCriteria.color criteria) then SearchCriteria.color criteria
  else get q0 "exterior_color".
Proof.
  unfold buildSearchParams. cbv zeta.
  rewrite get_through_sort by reflexivity. read_param.
  destruct (SearchCriteria.color criteria) as [[|c r]|]; reflexivity.
Qed.




Lemma param_sort :
  get q "sort_by" = Some (fst (remote_sort (SearchCriteria.sortBy criteria))) /\
  get q "sort_order" = Some (snd (remote_sort (SearchCriteria.sortBy criteria))).
Proof.
  unfold buildSearchParams. cbv zeta.
  destruct (SearchCriteria.sortBy criteria); cbn -[set get];
    split; read_param; reflexivity.
Qed.
End Params.

(** A request is built when the key is there and the platform takes the
    address. *)
Lemma searchRequest_built (URL_new : string -> result Request.t)
    (cfg : AppConfig.t) (criteria : SearchCriteria.t) (url : Request.t) :
  truthy_str (AppConfig.marketcheckApiKey cfg) = true ->
  URL_new (request_address cfg) = Ok url ->
  exists apiKey,
    AppConfig.marketcheckApiKey cfg = Some apiKey /\
    searchRequest URL_new cfg criteria =
    Ok {| Request.href := Request.href url;
          Request.searchParams :=
            buildSearchParams (Request.searchParams url) apiKey cfg criteria |}.
Proof.
  intros Hkey Hurl. unfold searchRequest, assertMarketcheckApiKey. rewrite Hkey, Hurl.
  destruct (AppConfig.marketcheckApiKey cfg) as [apiKey|]; [|discriminate].
  exists apiKey. split; reflexivity.
Qed.

(** And only then. *)
Lemma searchRequest_inv (URL_new : string -> result Request.t)
    (cfg : AppConfig.t) (criteria : SearchCriteria.t) (request : Request.t) :
  searchRequest URL_new cfg criteria = Ok request ->
  exists apiKey url,
    AppConfig.marketcheckApiKey cfg = Some apiKey /\ apiKey <> "" /\
    URL_new (request_address cfg) = Ok url /\
    request = {| Request.href := Request.href url;
                 Request.searchParams :=
                   buildSearchParams (Request.searchParams url) apiKey cfg criteria |}.
Proof.
  unfold searchRequest, assertMarketcheckApiKey.
  destruct (AppConfig.marketcheckApiKey cfg) as [[|c apiKey]|];
    simpl; try discriminate.
  destruct (URL_new (request_address cfg)) as [url|e]; [|discriminate].
  intros H. inversion H. exists (String c apiKey), url.
  repeat split. discriminate.
Qed.

Lemma searchRequest_no_key (URL_new : string -> result Request.t)
    (cfg : AppConfig.t) (criteria : SearchCriteria.t) :
  truthy_str (AppConfig.marketcheckApiKey cfg) = false ->
  searchRequest URL_new cfg criteria = Throw (Error MISSING_MARKETCHECK_KEY).
Proof.
  intros Hkey. unfold searchRequest, assertMarketcheckApiKey. now rewrite Hkey.
Qed.

(** The platform refusing the address is the one other way not to get a
    request. *)
Lemma searchRequest_bad_address (URL_new : string -> result Request.t)
    (cfg : AppConfig.t) (criteria : SearchCriteria.t) (e : exn) :
  truthy_str (AppConfig.marketcheckApiKey cfg) = true ->
  URL_new (request_address cfg) = Throw e ->
  searchRequest URL_new cfg criteria = Throw e.
Proof.
  intros Hkey Hurl. unfold searchRequest, assertMarketcheckApiKey.
  now rewrite Hkey, Hurl.
Qed.

Example default_address_is_plain :
  URL_plain (request_address (appConfig (env_with None)))
  = Ok {| Request.href := "https://api.marketcheck.com/v2/search/car/active";
          Request.searchParams := [] |}.
Proof. reflexivity. Qed.

Example relative_address_is_no_URL :
  URL_plain "/api/search/car/active" = Throw TypeError.
Proof. reflexivity. Qed.

(** ** The query of a search *)

Lemma filter_present_iff (x : option string) (s : string) :
  (if truthy_str x then x else None) = Some s <-> x = Some s /\ s <> "".
Proof.
  destruct x as [[|c r]|]; simpl; split.
  - discriminate.
  - intros [E Hs]. inversion E. subst s. now elim Hs.
  - intros E. inversion E. subst s. split; [reflexivity | discriminate].
  - intros [E _]. exact E.
  - discriminate.
  - intros [E _]. discriminate.
Qed.

(** What the form hands over for a text field: nothing, or the trimmed
    text when that is not empty. *)
Lemma sanitizeText_spec (v : option string) (s : string) :
  sanitizeText v = Some s <->
  exists r, v = Some r /\ s = trim r /\ trim r <> "".
Proof.
  unfold sanitizeText. destruct v as [r|].
  - destruct r as [|c r]; simpl negb; cbv iota.
    + split; [discriminate | intros (r & E & _ & H); inversion E; subst r; now elim H].
    + destruct (trim (String c r)) as [|c' t] eqn:Et; simpl String.length.
      * split; [discriminate|].
        intros (r' & E & _ & H). inversion E. subst r'. rewrite Et in H. now elim H.
      * replace (0 <? Z.of_nat (S (String.length t))) with true
          by (symmetry; apply Z.ltb_lt; lia).
        split.
        -- intros E. inversion E. subst s. exists (String c r).
           rewrite Et. repeat split; discriminate.
        -- intros (r' & E & Hs & _). inversion E. subst r'. rewrite Et in Hs.
           now subst s.
  - split; [discriminate | intros (r & E & _); discriminate].
Qed.

(** C5: for each of the four sort options a request that is built
    carries the remote sort field and the remote sort direction of the
    fixed table: priceAsc gives (price, asc), priceDesc (price, desc),
    distance (distance, asc) and mileageAsc (miles, asc), whatever the
    address of the service came with. *)
Theorem sort_parameters_follow_table (URL_new : string -> result Request.t)
    (cfg : AppConfig.t) (criteria : SearchCriteria.t) (request : Request.t) :
  searchRequest URL_new cfg criteria = Ok request ->
  get (Request.searchParams request) "sort_by"
    = Some (fst (remote_sort (SearchCriteria.sortBy criteria))) /\
  get (Request.searchParams request) "sort_order"
    = Some (snd (remote_sort (SearchCriteria.sortBy criteria))).
Proof.
  intros Hreq.
  destruct (searchRequest_inv URL_new cfg criteria request Hreq)
    as (apiKey & url & _ & _ & _ & Hrequest).
  subst request. simpl Request.searchParams. apply param_sort.
Qed.

Lemma sort_parameters_witness :
  exists request,
    searchRequest URL_plain (appConfig (env_with None))
      (criteria_with None None None None None mileageAsc) = Ok request /\
    get (Request.searchParams request) "sort_by" = Some "miles" /\
    get (Request.searchParams request) "sort_order" = Some "asc".
Proof.
  eexists. split; [reflexivity|].
  apply (sort_parameters_follow_table URL_plain (appConfig (env_with None))
           (criteria_with None None None None None mileageAsc) _ eq_refl).
Defined.

(** A bound that is supplied and not zero brings the range in, the other
    bound being the one given or else the default. *)
Lemma range_param_min_only (z : Z) (dlo dhi : string) :
  z <> 0 ->
  range_param (Some (Num z)) None dlo dhi
    = Some (Number_toString (Num z) ++ "-" ++ dhi).
Proof.
  intros Hz. unfold range_param, range_text. simpl.
  destruct (Z.eqb_spec z 0); [contradiction | reflexivity].
Qed.

Lemma range_param_absent (dlo dhi : string) : range_param None None dlo dhi = None.
Proof. reflexivity. Qed.

Lemma range_param_present (lo hi : option number) (dlo dhi : string) (z : Z) :
  z <> 0 -> lo = Some (Num z) \/ hi = Some (Num z) ->
  range_param lo hi dlo dhi = Some (range_text lo hi dlo dhi).
Proof.
  intros Hz [H|H]; subst; unfold range_param; simpl;
    destruct (Z.eqb_spec z 0); try contradiction; simpl;
    [reflexivity | now rewrite orb_true_r].
Qed.





(** C2: with a lower mileage bound of 20000 alone the request carries
    miles_range 20000-1000; with a lower mileage bound of 0 alone, or both
    price bounds 0, bounds are supplied and yet no range parameter is
    sent. *)
Theorem zero_bounds_send_no_range :
  (exists request,
     searchRequest URL_plain (appConfig (env_with None))
       (criteria_with None (Some (Num 20000)) None None None priceAsc) = Ok request /\
     get (Request.searchParams request) "miles_range" = Some "20000-1000") /\
  (exists request,
     searchRequest URL_plain (appConfig (env_with None))
       (criteria_with None (Some (Num 0)) None None None priceAsc) = Ok request /\
     get (Request.searchParams request) "miles_range" = None) /\
  (exists request,
     searchRequest URL_plain (appConfig (env_with None))
       (criteria_with None None None (Some (Num 0)) (Some (Num 0)) priceAsc) = Ok request /\
     get (Request.searchParams request) "price_range" = None).
Proof.
  repeat split; eexists; (split; [reflexivity|]); reflexivity.
Qed.

(** C6, as the code has it: in a request that is built for a service
    whose address came with none of them, make, model and exterior_color
    are sent exactly when the criteria hold a string for them that is not
    empty, and carry that string as it is; the builder does not trim.
    The strings the search form hands over are trimmed, so that for them
    a filter is sent exactly when the text of the field is not empty
    after trimming, and carries the trimmed text. *)
Theorem scalar_filters_when_non_empty (URL_new : string -> result Request.t)
    (cfg : AppConfig.t) (criteria : SearchCriteria.t) (request url : Request.t) :
  searchRequest URL_new cfg criteria = Ok request ->
  URL_new (request_address cfg) = Ok url ->
  get (Request.searchParams url) "make" = None ->
  get (Request.searchParams url) "model" = None ->
  get (Request.searchParams url) "exterior_color" = None ->
  (forall s, get (Request.searchParams request) "make" = Some s <->
             SearchCriteria.make criteria = Some s /\ s <> "") /\
  (forall s, get (Request.searchParams request) "model" = Some s <->
             SearchCriteria.model criteria = Some s /\ s <> "") /\
  (forall s, get (Request.searchParams request) "exterior_color" = Some s <->
             SearchCriteria.color criteria = Some s /\ s <> "") /\
  (forall field s, SearchCriteria.make criteria = sanitizeText field ->
     (get (Request.searchParams request) "make" = Some s <->
      exists text, field = Some text /\ s = trim text /\ trim text <> "")) /\
  (forall field s, SearchCriteria.model criteria = sanitizeText field ->
     (get (Request.searchParams request) "model" = Some s <->
      exists text, field = Some text /\ s = trim text /\ trim text <> "")) /\
  (forall field s, SearchCriteria.color criteria = sanitizeText field ->
     (get (Request.searchParams request) "exterior_color" = Some s <->
      exists text, field = Some text /\ s = trim text /\ trim text <> "")).
Proof.
  intros Hreq Hurl Hmake Hmodel Hcolor.
  destruct (searchRequest_inv URL_new cfg criteria request Hreq)
    as (apiKey & url' & _ & _ & Hurl' & Hrequest).
  rewrite Hurl in Hurl'. inversion Hurl'. subst url' request.
  simpl Request.searchParams.
  rewrite param_make, param_model, param_exterior_color, Hmake, Hmodel, Hcolor.
  assert (Hform : forall (x field : option string) (s : string),
             x = sanitizeText field ->
             ((if truthy_str x then x else None) = Some s <->
              exists text, field = Some text /\ s = trim text /\ trim text <> "")).
  { intros x field s Hx. rewrite filter_present_iff, Hx, sanitizeText_spec.
    split.
    - intros [H _]. exact H.
    - intros (text & E & Hs & Hne). split; [now exists text|]. now subst s. }
  split; [intros s; apply filter_present_iff|].
  split; [intros s; apply filter_present_iff|].
  split; [intros s; apply filter_present_iff|].
  split; [intros field s Hx; now apply Hform|].
  split; intros field s Hx; now apply Hform.
Qed.

Lemma scalar_filters_witness :
  exists request,
    searchRequest URL_plain (appConfig (env_with None))
      (criteria_with (Some "Honda") None None None None priceAsc) = Ok request /\
    get (Request.searchParams request) "make" = Some "Honda" /\
    get (Request.searchParams request) "model" = None.
Proof.
  eexists. split; [reflexivity|].
  destruct (scalar_filters_when_non_empty URL_plain (appConfig (env_with None))
              (criteria_with (Some "Honda") None None None None priceAsc)
              _ _ eq_refl eq_refl eq_refl eq_refl eq_refl)
    as (Hmake & Hmodel & _).
  split.
  - apply Hmake. split; [reflexivity | discriminate].
  - reflexivity.
Defined.

(** C6, as stated, fails: a make of two spaces is empty after trimming
    and is sent all the same. *)
Lemma whitespace_make_is_sent :
  exists request,
    searchRequest URL_plain (appConfig (env_with None))
      (criteria_with (Some "  ") None None None None priceAsc) = Ok request /\
    get (Request.searchParams request) "make" = Some "  " /\
    trim "  " = "".
Proof.
  eexists. split; [reflexivity|]. split; reflexivity.
Qed.

Lemma clamp_rows (z : Z) :
  exists n,
    Math_max (Num 1) (Math_min (Num z) (Num 50)) = Num n /\
    1 <= n <= 50 /\ (z < 1 -> n = 1) /\ (1 <= z <= 50 -> n = z) /\ (50 < z -> n = 50).
Proof.
  exists (Z.max 1 (Z.min z 50)). simpl. split; [reflexivity|]. lia.
Qed.

(** The parameters of every request that is built: the key, the latitude
    and the longitude of the location and the radius as [toString] gives
    them, car_type used, start 0 and rows.  rows is 24 when no page size is configured; when the
    configured text starts with an integer, rows is that integer brought
    into the range from 1 to 50; when it does not, rows is the text NaN. *)
Lemma fixed_parameters (URL_new : string -> result Request.t)
    (env : Env.t) (criteria : SearchCriteria.t) (url : Request.t) :
  truthy_str (Env.VITE_MARKETCHECK_API_KEY env) = true ->
  URL_new (request_address (appConfig env)) = Ok url ->
  exists request,
    searchRequest URL_new (appConfig env) criteria = Ok request /\
    get (Request.searchParams request) "api_key" = Env.VITE_MARKETCHECK_API_KEY env /\
    get (Request.searchParams request) "latitude"
      = Some (Number_toString (SelectedLocation.lat (SearchCriteria.location criteria))) /\
    get (Request.searchParams request) "longitude"
      = Some (Number_toString (SelectedLocation.lng (SearchCriteria.location criteria))) /\
    get (Request.searchParams request) "radius"
      = Some (Number_toString (SearchCriteria.radius criteria)) /\
    get (Request.searchParams request) "car_type" = Some "used" /\
    get (Request.searchParams request) "start" = Some "0" /\
    match Env.VITE_RESULTS_PER_PAGE env with
    | None => get (Request.searchParams request) "rows" = Some "24"
    | Some text =>
        match Number_parseInt text with
        | Num z =>
            exists n,
              get (Request.searchParams request) "rows" = Some (Number_toString (Num n)) /\
              1 <= n <= 50 /\
              (z < 1 -> n = 1) /\ (1 <= z <= 50 -> n = z) /\ (50 < z -> n = 50)
        | NaN => get (Request.searchParams request) "rows" = Some "NaN"
        end
    end.
Proof.
  intros Hkey Hurl.
  destruct (searchRequest_built URL_new (appConfig env) criteria url Hkey Hurl)
    as (apiKey & Hk & Hreq).
  eexists. split; [exact Hreq|]. simpl Request.searchParams.
  rewrite param_api_key, param_latitude, param_longitude, param_radius,
    param_car_type, param_start, param_rows.
  simpl in Hk. rewrite Hk.
  repeat (split; [reflexivity|]).
  unfold appConfig. simpl AppConfig.resultsPerPage.
  destruct (Env.VITE_RESULTS_PER_PAGE env) as [text|]; [|reflexivity].
  simpl nullish_default. destruct (Number_parseInt text) as [z|]; [|reflexivity].
  destruct (clamp_rows z) as (n & Hn & Hrange). exists n. rewrite Hn.
  split; [reflexivity | exact Hrange].
Qed.

Lemma fixed_parameters_witness :
  exists request,
    searchRequest URL_plain (appConfig (env_with (Some "200"))) plain_criteria
    = Ok request /\
    get (Request.searchParams request) "latitude" = Some "30" /\
    get (Request.searchParams request) "longitude" = Some "-97" /\
    get (Request.searchParams request) "rows" = Some "50".
Proof.
  destruct (fixed_parameters URL_plain (env_with (Some "200")) plain_criteria _
              eq_refl eq_refl)
    as (request & Hreq & _ & Hlat & Hlng & _ & _ & _ & Hrows).
  exists request. split; [exact Hreq|].
  split; [exact Hlat|]. split; [exact Hlng|].
  simpl in Hrows. destruct Hrows as (n & Hn & _ & _ & _ & Hbig).
  rewrite Hn, (Hbig ltac:(lia)). reflexivity.
Defined.

(** X10: a request is built whenever an API key is configured and the
    platform takes the address of the service, and it then carries the
    key as api_key, car_type used, start 0 and rows, whatever the address
    came with.  rows is 24 when no page size is configured; when the
    configured text starts with an integer, rows is that integer brought
    into the range from 1 to 50; when it does not, rows is the text NaN. *)
Theorem always_sent_parameters (URL_new : string -> result Request.t)
    (env : Env.t) (criteria : SearchCriteria.t) (url : Request.t) :
  truthy_str (Env.VITE_MARKETCHECK_API_KEY env) = true ->
  URL_new (request_address (appConfig env)) = Ok url ->
  exists request,
    searchRequest URL_new (appConfig env) criteria = Ok request /\
    get (Request.searchParams request) "api_key" = Env.VITE_MARKETCHECK_API_KEY env /\
    get (Request.searchParams request) "car_type" = Some "used" /\
    get (Request.searchParams request) "start" = Some "0" /\
    match Env.VITE_RESULTS_PER_PAGE env with
    | None => get (Request.searchParams request) "rows" = Some "24"
    | Some text =>
        match Number_parseInt text with
        | Num z =>
            (z < 1 -> get (Request.searchParams request) "rows" = Some "1") /\
            (50 < z -> get (Request.searchParams request) "rows" = Some "50") /\
            (1 <= z <= 50 ->
             get (Request.searchParams request) "rows" = Some (Number_toString (Num z)))
        | NaN => get (Request.searchParams request) "rows" = Some "NaN"
        end
    end.
Proof.
  intros Hkey Hurl.
  destruct (searchRequest_built URL_new (appConfig env) criteria url Hkey Hurl)
    as (apiKey & Hk & Hreq).
  eexists. split; [exact Hreq|]. simpl Request.searchParams.
  rewrite param_api_key, param_car_type, param_start, param_rows.
  simpl in Hk. rewrite Hk.
  repeat (split; [reflexivity|]).
  unfold appConfig. simpl AppConfig.resultsPerPage.
  destruct (Env.VITE_RESULTS_PER_PAGE env) as [text|]; [|reflexivity].
  simpl nullish_default. destruct (Number_parseInt text) as [z|]; [|reflexivity].
  simpl Math_min. simpl Math_max.
  split; [|split]; intros Hz.
  - replace (Z.max 1 (Z.min z 50)) with 1 by lia. reflexivity.
  - replace (Z.max 1 (Z.min z 50)) with 50 by lia. reflexivity.
  - replace (Z.max 1 (Z.min z 50)) with z by lia. reflexivity.
Qed.

Lemma always_sent_parameters_witness :
  exists request,
    searchRequest URL_plain (appConfig (env_with (Some "200"))) plain_criteria
    = Ok request /\
    get (Request.searchParams request) "api_key" = Some "KEY" /\
    get (Request.searchParams request) "rows" = Some "50".
Proof.
  destruct (always_sent_parameters URL_plain (env_with (Some "200")) plain_criteria _
              eq_refl eq_refl)
    as (request & Hreq & Hkey & _ & _ & Hrows).
  exists request. split; [exact Hreq|]. split; [exact Hkey|].
  simpl in Hrows. destruct Hrows as (_ & Hbig & _). apply Hbig. lia.
Defined.

(** C7: with a page size that is configured but is no number, the text
    abc or the empty text, the request carries rows NaN, which is no count
    between 1 and 50; the page size was neither replaced by the default
    nor brought into the range. *)
Theorem unparseable_page_size_sends_NaN :
  (exists request,
     searchRequest URL_plain (appConfig (env_with (Some "abc"))) plain_criteria
     = Ok request /\
     get (Request.searchParams request) "rows" = Some "NaN" /\
     forall n, 1 <= n <= 50 ->
       get (Request.searchParams request) "rows" <> Some (Number_toString (Num n))) /\
  (exists request,
     searchRequest URL_plain (appConfig (env_with (Some ""))) plain_criteria
     = Ok request /\
     get (Request.searchParams request) "rows" = Some "NaN").
Proof.
  split.
  - eexists. split; [reflexivity|]. split; [reflexivity|].
    intros n Hn H.
    replace n with (Z.of_nat (Z.to_nat n)) in H by lia.
    assert (Hk : (Z.to_nat n <= 50)%nat) by lia.
    remember (Z.to_nat n) as k eqn:Ek. clear Ek Hn.
    do 51 (destruct k as [|k]; [vm_compute in H; discriminate H|]).
    lia.
  - eexists. split; reflexivity.
Qed.

(** ** The response of a search *)


Lemma sortListings_nil (sortBy : SortOption) : sortListings [] sortBy = [].
Proof. destruct sortBy; reflexivity. Qed.




(** C8: when the response is ok and its body is a JSON value other than
    null, a JSON object in particular, whose listings property is missing
    or is not an array, the search returns no listing, raises nothing and
    draws no token. *)
Theorem missing_listings_give_no_results (URL_new : string -> result Request.t)
    (random_token : nat -> string)
    (fetch : Request.t -> Response.t) (cfg : AppConfig.t)
    (criteria : SearchCriteria.t) (request : Request.t) (payload : value) (k : nat) :
  searchRequest URL_new cfg criteria = Ok request ->
  Response.ok (fetch request) = true ->
  Response.json (fetch request) = Some payload ->
  payload <> Null -> payload <> Undefined ->
  (forall l, property "listings" payload <> Array l) ->
  searchVehicles URL_new random_token fetch cfg criteria k = (Ok [], k).
Proof.
  intros Hreq Hok Hjson Hnull Hundef Hlist. unfold searchVehicles, handleResponse.
  rewrite Hreq, Hok, Hjson. simpl negb. cbv iota.
  assert (Hnot : Array_isArray (property "listings" payload) = false).
  { destruct (property "listings" payload) as [| |b|n|s|l|ps]; try reflexivity.
    now elim (Hlist l). }
  destruct payload as [| |b|n|s|l|ps];
    try (now elim Hnull); try (now elim Hundef);
    rewrite Hnot; unfold bind; simpl; unfold ret;
    now rewrite sortListings_nil.
Qed.

Lemma missing_listings_witness :
  searchVehicles URL_plain (fun _ => "token")
    (respond true "OK" (Some (Object [("listings", Str "none")])))
    (appConfig (env_with None)) plain_criteria 0%nat
  = (Ok [], 0%nat)
  /\
  searchVehicles URL_plain (fun _ => "token") (respond true "OK" (Some (Object [])))
    (appConfig (env_with None)) plain_criteria 0%nat
  = (Ok [], 0%nat).
Proof.
  split.
  - apply (missing_listings_give_no_results URL_plain (fun _ => "token")
             (respond true "OK" (Some (Object [("listings", Str "none")])))
             (appConfig (env_with None)) plain_criteria _
             (Object [("listings", Str "none")]) 0%nat eq_refl eq_refl eq_refl);
      [discriminate | discriminate | intros l; discriminate].
  - apply (missing_listings_give_no_results URL_plain (fun _ => "token")
             (respond true "OK" (Some (Object [])))
             (appConfig (env_with None)) plain_criteria _
             (Object []) 0%nat eq_refl eq_refl eq_refl);
      [discriminate | discriminate | intros l; discriminate].
Defined.

(** A body that is the JSON value null is no JSON object: reading its
    listings property raises a TypeError. *)
Lemma null_body_raises :
  searchVehicles URL_plain (fun _ => "token") (respond true "OK" (Some Null))
    (appConfig (env_with None)) plain_criteria 0%nat
  = (Throw TypeError, 0%nat).
Proof. reflexivity. Qed.

(** ** Normalization *)

Lemma joined_build_words (build : Build.t) :
  Array_join " "
    (filter Boolean
       [of_number (Build.year build); of_string (Build.make build);
        of_string (Build.model build); of_string (Build.trim build)])
  = String.concat " "
      (word_of_number (Build.year build) ++ word_of_string (Build.make build)
         ++ word_of_string (Build.model build) ++ word_of_string (Build.trim build)).
Proof.
  destruct build as [y mk md tr bt tm dt ft]. simpl Build.year. simpl Build.make.
  simpl Build.model. simpl Build.trim.
  destruct y as [[z|]|]; [destruct (Z.eqb_spec z 0) as [Hz|Hz] | | ];
    destruct mk as [[|c1 r1]|]; destruct md as [[|c2 r2]|]; destruct tr as [[|c3 r3]|];
    unfold Array_join; simpl;
    try (destruct (Z.eqb_spec z 0); [try contradiction; try reflexivity | try contradiction; try reflexivity]);
    try reflexivity.
Qed.

Lemma computedTitle_words (listing : MarketcheckListing.t) :
  computedTitle listing (MarketcheckListing.build listing ?! Build.empty)
  = match MarketcheckListing.heading listing with
    | Some h => h
    | None => trim (String.concat " " (build_words listing))
    end.
Proof.
  unfold computedTitle, build_words.
  destruct (MarketcheckListing.heading listing) as [h|]; [reflexivity|].
  destruct (MarketcheckListing.build listing) as [build|];
    unfold nullish_default; rewrite joined_build_words; reflexivity.
Qed.

(** [normalizeListing] returns a listing for every record; the token
    source is read when, and only when, the record has neither id nor
    vin. *)
Lemma normalizeListing_runs (random_token : nat -> string)
    (listing : MarketcheckListing.t) (k : nat) :
  exists v,
    normalizeListing random_token listing k
    = (Ok v,
       match MarketcheckListing.id listing, MarketcheckListing.vin listing with
       | None, None => S k
       | _, _ => k
       end) /\
    VehicleListing.id v
    = match MarketcheckListing.id listing with
      | Some s => s
      | None =>
          match MarketcheckListing.vin listing with
          | Some s => s
          | None => random_token k
          end
      end /\
    VehicleListing.title v
    = (let t := computedTitle listing (MarketcheckListing.build listing ?! Build.empty) in
       if String_truthy t then t else "Used Vehicle").
Proof.
  unfold normalizeListing, bind, listing_id, cryptoRandomId, ret.
  destruct (MarketcheckListing.id listing) as [i|];
    [|destruct (MarketcheckListing.vin listing) as [n|]];
    simpl; eexists; (split; [reflexivity|]); split; reflexivity.
Qed.

(** C3, as the code has it: the title is the heading, untrimmed, when
    the record has a heading that is not empty, a heading of white space
    included; with no heading it is the space-joined words for year, make,
    model and trim (a year other than zero, strings that are not empty),
    trimmed; it is Used Vehicle when that is empty and when the heading is
    the empty string.  A record with no heading and build 2020 Honda Civic
    is titled 2020 Honda Civic, a record with neither heading nor build
    Used Vehicle. *)
Theorem title_of_listing :
  (forall (random_token : nat -> string) (listing : MarketcheckListing.t) (k : nat),
     exists v k',
       normalizeListing random_token listing k = (Ok v, k') /\
       VehicleListing.title v
       = match MarketcheckListing.heading listing with
         | Some EmptyString => "Used Vehicle"
         | Some h => h
         | None =>
             match trim (String.concat " " (build_words listing)) with
             | EmptyString => "Used Vehicle"
             | t => t
             end
         end) /\
  (forall (random_token : nat -> string) (k : nat),
     exists v k',
       normalizeListing random_token
         (listing_with None None None (Some honda_civic_2020)) k = (Ok v, k') /\
       VehicleListing.title v = "2020 Honda Civic") /\
  (forall (random_token : nat -> string) (k : nat),
     exists v k',
       normalizeListing random_token (listing_with None None None None) k = (Ok v, k') /\
       VehicleListing.title v = "Used Vehicle").
Proof.
  split; [|split].
  - intros random_token listing k.
    destruct (normalizeListing_runs random_token listing k) as (v & Hrun & _ & Ht).
    exists v. eexists. split; [exact Hrun|]. rewrite Ht, computedTitle_words.
    cbv zeta. destruct (MarketcheckListing.heading listing) as [[|c h]|]; try reflexivity.
    destruct (trim (String.concat " " (build_words listing))); reflexivity.
  - intros random_token k. eexists. eexists. split; reflexivity.
  - intros random_token k. eexists. eexists. split; reflexivity.
Qed.

(** C3, as stated, fails: a heading of white space is empty after
    trimming and is the title all the same, and with an empty heading the
    title is Used Vehicle although the build has a year, a make and a
    model. *)
Lemma blank_heading_is_not_replaced :
  (exists v k',
     normalizeListing (fun _ => "token")
       (listing_with (Some "id-1") None (Some "   ") (Some honda_civic_2020)) 0%nat
     = (Ok v, k') /\
     VehicleListing.title v = "   " /\ trim "   " = "") /\
  (exists v k',
     normalizeListing (fun _ => "token")
       (listing_with (Some "id-1") None (Some "") (Some honda_civic_2020)) 0%nat
     = (Ok v, k') /\
     VehicleListing.title v = "Used Vehicle").
Proof.
  split; eexists; eexists; (split; [reflexivity|]); repeat split.
Qed.

(** C9: two runs of [normalizeListing] on one record, whatever the two
    token sources and however many tokens were drawn before, return
    listings that agree on every field but the id; the ids are the
    upstream id, or else the vin, in both runs when the record has one of
    them, and the tokens drawn otherwise. *)
Theorem normalization_differs_in_id_only
    (source1 source2 : nat -> string) (listing : MarketcheckListing.t) (k1 k2 : nat) :
  exists v1 v2 k1' k2',
    normalizeListing source1 listing k1 = (Ok v1, k1') /\
    normalizeListing source2 listing k2 = (Ok v2, k2') /\
    equal_but_id v1 v2 /\
    match MarketcheckListing.id listing ?? MarketcheckListing.vin listing with
    | Some s => VehicleListing.id v1 = s /\ VehicleListing.id v2 = s
    | None => VehicleListing.id v1 = source1 k1 /\ VehicleListing.id v2 = source2 k2
    end.
Proof.
  unfold normalizeListing, bind, listing_id, cryptoRandomId, ret.
  destruct (MarketcheckListing.id listing ?? MarketcheckListing.vin listing) as [s|];
    do 4 eexists; (split; [reflexivity|]); (split; [reflexivity|]);
    (split; [unfold equal_but_id; simpl; repeat split|]); split; reflexivity.
Qed.

(** C10: a record with an id keeps exactly that string as the id of the
    listing, the empty string included, and draws no token; a token is
    drawn exactly when the record has neither id nor vin, and is then the
    id.  So the id of a listing is the empty string for a record whose id
    is the empty string. *)
Theorem upstream_id_is_kept (random_token : nat -> string) (k : nat) :
  (forall listing : MarketcheckListing.t,
     exists v,
       normalizeListing random_token listing k
       = (Ok v,
          match MarketcheckListing.id listing, MarketcheckListing.vin listing with
          | None, None => S k
          | _, _ => k
          end) /\
       VehicleListing.id v
       = match MarketcheckListing.id listing with
         | Some s => s
         | None =>
             match MarketcheckListing.vin listing with
             | Some s => s
             | None => random_token k
             end
         end) /\
  (exists v,
     normalizeListing random_token
       (listing_with (Some "") (Some "1HGBH41JXMN109186") None None) k = (Ok v, k) /\
     VehicleListing.id v = "").
Proof.
  split.
  - intros listing.
    destruct (normalizeListing_runs random_token listing k) as (v & Hrun & Hid & _).
    exists v. split; assumption.
  - eexists. split; reflexivity.
Qed.

(** ** Sorting *)

Section InsertionSort.
Context {A : Type} (comparefn : A -> A -> number).
Context (R : A -> A -> Prop) (P : A -> Prop).
Hypothesis R_trans :
  forall a b c, P a -> P b -> P c -> R a b -> R b c -> R a c.
Hypothesis stays :
  forall a b, P a -> P b -> positive (comparefn a b) = false -> R a b.
Hypothesis moves :
  forall a b, P a -> P b -> positive (comparefn a b) = true -> R b a.

Lemma insert_Permutation (x : A) (l : list A) :
  Permutation (x :: l) (insert comparefn x l).
Proof.
  induction l as [|y l IH]; simpl; [apply Permutation_refl|].
  destruct (positive (comparefn x y)); [|apply Permutation_refl].
  apply perm_trans with (y :: x :: l); [apply perm_swap | now apply perm_skip].
Qed.

Lemma Array_sort_Permutation (l : list A) :
  Permutation l (Array_sort comparefn l).
Proof.
  induction l as [|x l IH]; simpl; [apply perm_nil|].
  apply perm_trans with (x :: Array_sort comparefn l);
    [now apply perm_skip | apply insert_Permutation].
Qed.

Lemma insert_StronglySorted (x : A) (l : list A) :
  P x -> Forall P l -> StronglySorted R l ->
  StronglySorted R (insert comparefn x l).
Proof.
  intros Px. induction l as [|y l IH]; intros Pl Hs; simpl.
  - constructor; constructor.
  - inversion Pl as [|? ? Py Pl']. subst.
    apply StronglySorted_inv in Hs. destruct Hs as [Hs Hy].
    destruct (positive (comparefn x y)) eqn:Hc.
    + constructor; [now apply IH|].
      apply Permutation_Forall with (x :: l); [apply insert_Permutation|].
      constructor; [now apply moves | exact Hy].
    + constructor; [now constructor|].
      constructor; [now apply stays|].
      rewrite Forall_forall in Hy, Pl' |- *. intros z Hz.
      apply R_trans with y; auto.
  Qed.

Lemma Array_sort_StronglySorted (l : list A) :
  Forall P l -> StronglySorted R (Array_sort comparefn l).
Proof.
  induction l as [|x l IH]; intros Pl; simpl; [constructor|].
  inversion Pl as [|? ? Px Pl']. subst.
  apply insert_StronglySorted; [exact Px | | now apply IH].
  apply Permutation_Forall with l; [apply Array_sort_Permutation | exact Pl'].
Qed.
End InsertionSort.

Lemma in_order_trans (d : SortDirection) (a b c : option number) :
  is_number a -> is_number b -> is_number c ->
  in_order d a b -> in_order d b c -> in_order d a c.
Proof.
  unfold is_number.
  destruct a as [[x|]|], b as [[y|]|], c as [[z|]|], d; simpl;
    intros Ha Hb Hc Hab Hbc;
    try congruence; try contradiction; try lia; try exact I.
Qed.

Lemma compare_stays (d : SortDirection) (a b : option number) :
  is_number a -> is_number b ->
  positive (compareWithMissing a b d) = false -> in_order d a b.
Proof.
  unfold is_number.
  destruct a as [[x|]|], b as [[y|]|], d; simpl; intros Ha Hb H;
    try congruence; try exact I; try reflexivity;
    apply Z.ltb_ge in H; lia.
Qed.

Lemma compare_moves (d : SortDirection) (a b : option number) :
  is_number a -> is_number b ->
  positive (compareWithMissing a b d) = true -> in_order d b a.
Proof.
  unfold is_number.
  destruct a as [[x|]|], b as [[y|]|], d; simpl; intros Ha Hb H;
    try congruence; try exact I; try reflexivity;
    apply Z.ltb_lt in H; lia.
Qed.

Lemma comparators_by_key (sortBy : SortOption) :
  comparators sortBy
  = Some (fun a b =>
            compareWithMissing (sort_key sortBy a) (sort_key sortBy b)
              (direction_of sortBy)).
Proof. destruct sortBy; reflexivity. Qed.

(** C1, as the code has it: the listings come back rearranged in the
    order of the option, on the field it looks at (price, distance or
    mileage).  Two listings without the field compare equal; two numbers
    compare by their difference, taken in the direction of the option; a
    listing without the field compares after one that has it in the
    ascending options and before it in priceDesc, where the descending
    order is the mirror of the ascending one.  The prices 30000, missing,
    10000 come back as 10000, 30000, missing under priceAsc. *)
Theorem sortListings_order :
  (forall (listings : list VehicleListing.t) (sortBy : SortOption),
     Forall (fun v => is_number (sort_key sortBy v)) listings ->
     Permutation listings (sortListings listings sortBy) /\
     StronglySorted
       (fun a b => in_order (direction_of sortBy) (sort_key sortBy a) (sort_key sortBy b))
       (sortListings listings sortBy)) /\
  (forall d, compareWithMissing None None d = Num 0) /\
  (forall x, compareWithMissing None (Some x) asc = Num 1 /\
             compareWithMissing (Some x) None asc = Num (-1)) /\
  (forall x, compareWithMissing None (Some x) desc = Num (-1) /\
             compareWithMissing (Some x) None desc = Num 1) /\
  (forall x y, compareWithMissing (Some (Num x)) (Some (Num y)) asc = Num (x - y) /\
               compareWithMissing (Some (Num x)) (Some (Num y)) desc = Num (y - x)) /\
  map VehicleListing.price (sortListings three_prices priceAsc)
  = [Some (Num 10000); Some (Num 30000); None].
Proof.
  split; [|repeat split].
  intros listings sortBy Hnum. unfold sortListings.
  rewrite comparators_by_key. split.
  - apply Array_sort_Permutation.
  - apply Array_sort_StronglySorted
      with (P := fun v => is_number (sort_key sortBy v)).
    + intros a b c Pa Pb Pc. now apply in_order_trans.
    + intros a b Pa Pb. now apply compare_stays.
    + intros a b Pa Pb. now apply compare_moves.
    + exact Hnum.
Qed.

Lemma sortListings_order_witness :
  Permutation three_prices (sortListings three_prices priceDesc) /\
  StronglySorted
    (fun a b => in_order desc (VehicleListing.price a) (VehicleListing.price b))
    (sortListings three_prices priceDesc).
Proof.
  apply (proj1 sortListings_order three_prices priceDesc).
  repeat constructor; discriminate.
Defined.

(** C1, as stated, fails: under priceDesc the listing without a price
    comes first. *)
Lemma missing_price_sorts_first_descending :
  map VehicleListing.price (sortListings three_prices priceDesc)
  = [None; Some (Num 30000); Some (Num 10000)].
Proof. reflexivity. Qed.

(** ** More on the request *)


(** The parameters in the order they are set on a query that is empty
    at first: no [set] replaces an earlier one. *)
Lemma buildSearchParams_explicit (apiKey : string) (cfg : AppConfig.t)
    (criteria : SearchCriteria.t) :
  buildSearchParams [] apiKey cfg criteria
  = ([("api_key", apiKey);
     ("latitude",
      Number_toString (SelectedLocation.lat (SearchCriteria.location criteria)));
     ("longitude",
      Number_toString (SelectedLocation.lng (SearchCriteria.location criteria)));
     ("radius", Number_toString (SearchCriteria.radius criteria));
     ("car_type", "used"); ("start", "0");
     ("rows",
      Number_toString
        (Math_max (Num 1) (Math_min (AppConfig.resultsPerPage cfg) (Num 50))))]
    ++ optional "make" (truthy_str (SearchCriteria.make criteria))
         (SearchCriteria.make criteria ?! "")
    ++ optional "model" (truthy_str (SearchCriteria.model criteria))
         (SearchCriteria.model criteria ?! "")
    ++ optional "exterior_color" (truthy_str (SearchCriteria.color criteria))
         (SearchCriteria.color criteria ?! "")
    ++ optional "year_range"
         (truthy_num (SearchCriteria.minYear criteria)
          || truthy_num (SearchCriteria.maxYear criteria))
         (range_text (SearchCriteria.minYear criteria)
            (SearchCriteria.maxYear criteria) "2000" "2030")
    ++ optional "miles_range"
         (truthy_num (SearchCriteria.minMiles criteria)
          || truthy_num (SearchCriteria.maxMiles criteria))
         (range_text (SearchCriteria.minMiles criteria)
            (SearchCriteria.maxMiles criteria) "0" "1000")
    ++ optional "price_range"
         (truthy_num (SearchCriteria.minPrice criteria)
          || truthy_num (SearchCriteria.maxPrice criteria))
         (range_text (SearchCriteria.minPrice criteria)
            (SearchCriteria.maxPrice criteria) "0" "100000")
    ++ [("sort_by", fst (remote_sort (SearchCriteria.sortBy criteria)));
        ("sort_order", snd (remote_sort (SearchCriteria.sortBy criteria)))])%list.
Proof.
  unfold buildSearchParams. cbv zeta.
  destruct (truthy_str (SearchCriteria.make criteria));
    destruct (truthy_str (SearchCriteria.model criteria));
    destruct (truthy_str (SearchCriteria.color criteria));
    destruct (truthy_num (SearchCriteria.minYear criteria)
              || truthy_num (SearchCriteria.maxYear criteria));
    destruct (truthy_num (SearchCriteria.minMiles criteria)
              || truthy_num (SearchCriteria.maxMiles criteria));
    destruct (truthy_num (SearchCriteria.minPrice criteria)
              || truthy_num (SearchCriteria.maxPrice criteria));
    destruct (SearchCriteria.sortBy criteria); reflexivity.
Qed.


(** X1: without a Marketcheck API key, absent or empty, a search fails
    with the error that names the missing setting, whatever the network
    would answer, and draws no token. *)
Theorem search_without_key (URL_new : string -> result Request.t)
    (random_token : nat -> string)
    (fetch : Request.t -> Response.t) (cfg : AppConfig.t)
    (criteria : SearchCriteria.t) (k : nat) :
  AppConfig.marketcheckApiKey cfg = None \/ AppConfig.marketcheckApiKey cfg = Some "" ->
  searchVehicles URL_new random_token fetch cfg criteria k
  = (Throw (Error MISSING_MARKETCHECK_KEY), k).
Proof.
  intros Hkey. unfold searchVehicles.
  rewrite searchRequest_no_key; [reflexivity|].
  destruct Hkey as [H|H]; rewrite H; reflexivity.
Qed.

Lemma search_without_key_witness :
  searchVehicles URL_plain (fun _ => "token") (respond true "OK" (Some (Object [])))
    {| AppConfig.googleMapsApiKey := None;
       AppConfig.marketcheckApiKey := Some "";
       AppConfig.marketcheckBaseUrl := DEFAULT_MARKETCHECK_BASE;
       AppConfig.resultsPerPage := Num 24 |}
    plain_criteria 5%nat
  = (Throw (Error MISSING_MARKETCHECK_KEY), 5%nat).
Proof.
  apply search_without_key. right. reflexivity.
Defined.



(** X3: in a request that is built on an address without a query of its
    own, no parameter is set twice and none outside the fifteen names of
    the service: the request has the nine parameters that are always
    sent and at most the six optional ones. *)
Theorem query_shape (URL_new : string -> result Request.t)
    (cfg : AppConfig.t) (criteria : SearchCriteria.t) (request url : Request.t) :
  searchRequest URL_new cfg criteria = Ok request ->
  URL_new (request_address cfg) = Ok url ->
  Request.searchParams url = [] ->
  NoDup (map fst (Request.searchParams request)) /\
  incl (map fst (Request.searchParams request)) PARAMETER_NAMES /\
  (9 <= length (Request.searchParams request) <= 15)%nat.
Proof.
  intros Hreq Hurl Hempty.
  destruct (searchRequest_inv URL_new cfg criteria request Hreq)
    as (apiKey & url' & _ & _ & Hurl' & Hrequest).
  rewrite Hurl in Hurl'. inversion Hurl'. subst url' request.
  simpl Request.searchParams. rewrite Hempty.
  rewrite buildSearchParams_explicit.
  destruct (truthy_str (SearchCriteria.make criteria));
    destruct (truthy_str (SearchCriteria.model criteria));
    destruct (truthy_str (SearchCriteria.color criteria));
    destruct (truthy_num (SearchCriteria.minYear criteria)
              || truthy_num (SearchCriteria.maxYear criteria));
    destruct (truthy_num (SearchCriteria.minMiles criteria)
              || truthy_num (SearchCriteria.maxMiles criteria));
    destruct (truthy_num (SearchCriteria.minPrice criteria)
              || truthy_num (SearchCriteria.maxPrice criteria));
    cbn [optional app map fst length];
    (split;
     [ match goal with
       | |- NoDup ?l =>
           let E := fresh "E" in
           assert (E : nodup string_dec l = l) by (vm_compute; reflexivity);
           rewrite <- E; apply NoDup_nodup
       end
     | split;
       [ intros x Hx; simpl in Hx; unfold PARAMETER_NAMES; simpl; tauto | lia ] ]).
Qed.

Lemma query_shape_witness :
  exists request,
    searchRequest URL_plain (appConfig (env_with None))
      (criteria_with (Some "Honda") (Some (Num 20000)) None None None priceAsc)
    = Ok request /\
    NoDup (map fst (Request.searchParams request)) /\
    incl (map fst (Request.searchParams request)) PARAMETER_NAMES /\
    (9 <= length (Request.searchParams request) <= 15)%nat.
Proof.
  eexists. split; [reflexivity|].
  apply (query_shape URL_plain (appConfig (env_with None))
           (criteria_with (Some "Honda") (Some (Num 20000)) None None None priceAsc)
           _ _ eq_refl eq_refl eq_refl).
Defined.

(** ** More on the response *)

Lemma normalizeElement_runs (random_token : nat -> string) (e : value) (k : nat) :
  nullish_value e = false ->
  exists v,
    normalizeElement random_token e k
    = (Ok v, if without_id e then S k else k).
Proof.
  intros He.
  destruct (normalizeListing_runs random_token (read_listing e) k) as (v & Hrun & _).
  exists v.
  replace (normalizeElement random_token e k)
    with (normalizeListing random_token (read_listing e) k)
    by (destruct e; try reflexivity; discriminate He).
  rewrite Hrun. unfold without_id.
  destruct (MarketcheckListing.id (read_listing e));
    destruct (MarketcheckListing.vin (read_listing e)); reflexivity.
Qed.


(** Every element that can be read is normalized, in turn, each one
    without id and vin drawing the next token. *)
Lemma Array_map_normalizes (random_token : nat -> string) (elements : list value) :
  existsb nullish_value elements = false ->
  forall k,
  exists vs,
    Array_map (normalizeElement random_token) elements k
    = (Ok vs, (k + length (filter without_id elements))%nat) /\
    length vs = length elements.
Proof.
  induction elements as [|e elements IH]; intros Hok k.
  - exists []. simpl. unfold ret. now rewrite Nat.add_0_r.
  - simpl in Hok. apply orb_false_iff in Hok. destruct Hok as [He Hrest].
    destruct (normalizeElement_runs random_token e k He) as (v & Hv).
    destruct (IH Hrest (if without_id e then S k else k)) as (vs & Hvs & Hlen).
    exists (v :: vs). split; [|simpl; now rewrite Hlen].
    simpl. unfold bind at 1. rewrite Hv. unfold bind at 1. rewrite Hvs.
    unfold ret. f_equal. destruct (without_id e); simpl; lia.
Qed.


(** [handleResponse] on a response that is ok. *)
Lemma handleResponse_ok (random_token : nat -> string) (response : Response.t)
    (sortBy : SortOption) (k : nat) :
  Response.ok response = true ->
  handleResponse random_token response sortBy k
  = match Response.json response with
    | None => (Throw SyntaxError, k)
    | Some payload =>
        if nullish_value payload then (Throw TypeError, k)
        else
          match Array_map (normalizeElement random_token) (listings_of payload) k with
          | (Ok normalized, k') => (Ok (sortListings normalized sortBy), k')
          | (Throw e, k') => (Throw e, k')
          end
    end.
Proof.
  intros Hok. unfold handleResponse. rewrite Hok. simpl negb. cbv iota.
  destruct (Response.json response) as [payload|]; [|reflexivity].
  destruct payload; reflexivity.
Qed.



Lemma declared_not_nullish (elements : list value) :
  forallb listing_as_declared elements = true ->
  existsb nullish_value elements = false.
Proof.
  induction elements as [|e elements IH]; [reflexivity|].
  simpl. intros H. apply andb_true_iff in H. destruct H as [He Hrest].
  rewrite (IH Hrest). destruct e; try discriminate He; reflexivity.
Qed.

(** X5: on a response that is ok, whose body is not null and whose
    listings are as declared, a search returns the normalized elements of
    the listings array as [sortListings] arranges them, one listing for
    each element, none dropped and none added, and draws one token for
    each element that has neither id nor vin. *)
Theorem search_returns_every_record (URL_new : string -> result Request.t)
    (random_token : nat -> string)
    (fetch : Request.t -> Response.t) (cfg : AppConfig.t)
    (criteria : SearchCriteria.t) (request : Request.t) (payload : value) (k : nat) :
  searchRequest URL_new cfg criteria = Ok request ->
  Response.ok (fetch request) = true ->
  Response.json (fetch request) = Some payload ->
  nullish_value payload = false ->
  forallb listing_as_declared (listings_of payload) = true ->
  exists normalized,
    Array_map (normalizeElement random_token) (listings_of payload) k
    = (Ok normalized, (k + length (filter without_id (listings_of payload)))%nat) /\
    searchVehicles URL_new random_token fetch cfg criteria k
    = (Ok (sortListings normalized (SearchCriteria.sortBy criteria)),
       (k + length (filter without_id (listings_of payload)))%nat) /\
    length (sortListings normalized (SearchCriteria.sortBy criteria))
    = length (listings_of payload) /\
    Permutation normalized (sortListings normalized (SearchCriteria.sortBy criteria)).
Proof.
  intros Hreq Hok Hjson Hp Hdeclared.
  pose proof (declared_not_nullish _ Hdeclared) as Hl.
  destruct (Array_map_normalizes random_token _ Hl k) as (vs & Hvs & Hlen).
  exists vs. split; [exact Hvs|].
  assert (Hperm : Permutation vs (sortListings vs (SearchCriteria.sortBy criteria))).
  { unfold sortListings. rewrite comparators_by_key. apply Array_sort_Permutation. }
  split; [|split; [|exact Hperm]].
  - unfold searchVehicles. rewrite Hreq.
    rewrite handleResponse_ok by exact Hok. rewrite Hjson, Hp, Hvs. reflexivity.
  - rewrite <- Hlen. symmetry. now apply Permutation_length.
Qed.

Lemma search_returns_every_record_witness :
  exists normalized,
    searchVehicles URL_plain (fun _ => "token")
      (respond true "OK"
         (Some (Object [("listings",
                         Array [Object [("price", Number (Num 9))];
                                Object [("vin", Str "V"); ("price", Number (Num 5))]])])))
      (appConfig (env_with None)) plain_criteria 3%nat
    = (Ok (sortListings normalized priceAsc), 4%nat) /\
    length (sortListings normalized priceAsc) = 2%nat.
Proof.
  destruct (search_returns_every_record URL_plain (fun _ => "token")
              (respond true "OK"
                 (Some (Object [("listings",
                                 Array [Object [("price", Number (Num 9))];
                                        Object [("vin", Str "V");
                                                ("price", Number (Num 5))]])])))
              (appConfig (env_with None)) plain_criteria _ _ 3%nat
              eq_refl eq_refl eq_refl eq_refl eq_refl)
    as (normalized & _ & Hrun & Hlen & _).
  exists normalized. split; [exact Hrun | exact Hlen].
Defined.

(** ** More on sorting *)

Section InsertionSortMore.
Context {A : Type} (comparefn : A -> A -> number).

(** Elements a predicate selects and that never compare greater than one
    another keep their order. *)
Lemma insert_filter (p : A -> bool) (x : A) (l : list A) :
  (forall a b, p a = true -> p b = true -> positive (comparefn a b) = false) ->
  filter p (insert comparefn x l) = filter p (x :: l).
Proof.
  intros Hp. induction l as [|y l IH]; [reflexivity|].
  simpl insert. destruct (positive (comparefn x y)) eqn:Hc; [|reflexivity].
  simpl filter in *. rewrite IH.
  destruct (p x) eqn:Hx, (p y) eqn:Hy; try reflexivity.
  rewrite (Hp x y Hx Hy) in Hc. discriminate Hc.
Qed.

Lemma Array_sort_filter (p : A -> bool) (l : list A) :
  (forall a b, p a = true -> p b = true -> positive (comparefn a b) = false) ->
  filter p (Array_sort comparefn l) = filter p l.
Proof.
  intros Hp. induction l as [|x l IH]; [reflexivity|].
  simpl Array_sort. rewrite insert_filter by exact Hp.
  simpl. now rewrite IH.
Qed.

(** A list that is in order already is left as it is. *)
Lemma Array_sort_fixed (R : A -> A -> Prop) (P : A -> Prop) (l : list A) :
  (forall a b, P a -> P b -> R a b -> positive (comparefn a b) = false) ->
  Forall P l -> StronglySorted R l -> Array_sort comparefn l = l.
Proof.
  intros Hkeep Pl Hs. induction l as [|x l IH]; [reflexivity|].
  inversion Pl as [|? ? Px Pl']. subst.
  apply StronglySorted_inv in Hs. destruct Hs as [Hs Hx].
  simpl. rewrite (IH Pl' Hs).
  destruct l as [|y l]; [reflexivity|]. simpl.
  inversion Hx as [|? ? Rxy _]. inversion Pl' as [|? ? Py _]. subst.
  now rewrite (Hkeep x y Px Py Rxy).
Qed.
End InsertionSortMore.

Section SortedLists.
Context {A : Type}.

Lemma StronglySorted_impl (R S : A -> A -> Prop) (l : list A) :
  (forall a b, In a l -> In b l -> R a b -> S a b) ->
  StronglySorted R l -> StronglySorted S l.
Proof.
  induction l as [|x l IH]; intros Himp Hs; [constructor|].
  apply StronglySorted_inv in Hs. destruct Hs as [Hs Hx].
  constructor.
  - apply IH; [|exact Hs]. intros a b Ha Hb. apply Himp; now right.
  - rewrite Forall_forall in Hx |- *. intros y Hy.
    apply Himp; [now left | now right | now apply Hx].
Qed.

Lemma StronglySorted_snoc (R : A -> A -> Prop) (l : list A) (x : A) :
  StronglySorted R l -> Forall (fun a => R a x) l ->
  StronglySorted R (l ++ [x]).
Proof.
  induction l as [|y l IH]; intros Hs Hx; simpl.
  - constructor; constructor.
  - apply StronglySorted_inv in Hs. destruct Hs as [Hs Hy].
    inversion Hx as [|? ? Ryx Hx']. subst.
    constructor; [now apply IH|].
    apply Forall_app. split; [exact Hy | now constructor].
Qed.

Lemma StronglySorted_rev (R : A -> A -> Prop) (l : list A) :
  StronglySorted R l -> StronglySorted (fun a b => R b a) (rev l).
Proof.
  induction l as [|x l IH]; intros Hs; simpl; [constructor|].
  apply StronglySorted_inv in Hs. destruct Hs as [Hs Hx].
  apply StronglySorted_snoc; [now apply IH|].
  apply Forall_rev. exact Hx.
Qed.

(** Two orderings of the same elements are the same list when no two
    elements can go either way round. *)
Lemma StronglySorted_unique (R : A -> A -> Prop) (l1 l2 : list A) :
  (forall a b, In a l1 -> In b l1 -> R a b -> R b a -> a = b) ->
  StronglySorted R l1 -> StronglySorted R l2 -> Permutation l1 l2 -> l1 = l2.
Proof.
  revert l2. induction l1 as [|x l1 IH]; intros l2 Hanti H1 H2 Hperm.
  - apply Permutation_nil in Hperm. now subst.
  - destruct l2 as [|y l2].
    + apply Permutation_sym, Permutation_nil in Hperm. discriminate Hperm.
    + apply StronglySorted_inv in H1. destruct H1 as [H1 Hx].
      apply StronglySorted_inv in H2. destruct H2 as [H2 Hy].
      rewrite Forall_forall in Hx, Hy.
      assert (Hxy : x = y).
      { assert (Hin1 : In x (y :: l2))
          by (apply (Permutation_in x Hperm); now left).
        assert (Hin2 : In y (x :: l1))
          by (apply (Permutation_in y (Permutation_sym Hperm)); now left).
        destruct Hin1 as [E|Hin1]; [now symmetry|].
        destruct Hin2 as [E|Hin2]; [exact E|].
        apply Hanti; [now left | now right | now apply Hx | now apply Hy]. }
      subst y. f_equal. apply IH; try assumption.
      * intros a b Ha Hb. apply Hanti; now right.
      * now apply Permutation_cons_inv with x.
Qed.

Lemma NoDup_map_injective {B : Type} (f : A -> B) (l : list A) (a b : A) :
  NoDup (map f l) -> In a l -> In b l -> f a = f b -> a = b.
Proof.
  induction l as [|x l IH]; intros Hnd Ha Hb E; [contradiction|].
  simpl in Hnd. inversion Hnd as [|? ? Hx Hnd']. subst.
  destruct Ha as [Ha|Ha], Hb as [Hb|Hb].
  - now subst.
  - subst a. elim Hx. rewrite E. now apply in_map.
  - subst b. elim Hx. rewrite <- E. now apply in_map.
  - now apply IH.
Qed.
End SortedLists.

Lemma compare_keeps (d : SortDirection) (a b : option number) :
  is_number a -> is_number b ->
  in_order d a b -> positive (compareWithMissing a b d) = false.
Proof.
  unfold is_number.
  destruct a as [[x|]|], b as [[y|]|], d; simpl; intros Ha Hb H;
    try congruence; try reflexivity; try contradiction;
    apply Z.ltb_ge; lia.
Qed.

Lemma compare_same_key (d : SortDirection) (a b k : option number) :
  key_eqb a k = true -> key_eqb b k = true ->
  positive (compareWithMissing a b d) = false.
Proof.
  destruct a as [[x|]|], b as [[y|]|], k as [[z|]|], d; simpl;
    intros Ha Hb; try discriminate; try reflexivity;
    apply Z.eqb_eq in Ha; apply Z.eqb_eq in Hb; apply Z.ltb_ge; lia.
Qed.

Lemma in_order_mirror (a b : option number) :
  in_order asc b a -> in_order desc a b.
Proof.
  destruct a as [[x|]|], b as [[y|]|]; simpl; intros H;
    try congruence; try exact H; try reflexivity.
Qed.

Lemma in_order_antisym (d : SortDirection) (a b : option number) :
  in_order d a b -> in_order d b a -> a = b.
Proof.
  destruct a as [[x|]|], b as [[y|]|], d; simpl; intros H1 H2;
    try congruence; try contradiction; try reflexivity;
    f_equal; f_equal; lia.
Qed.

Lemma sortListings_sorted (listings : list VehicleListing.t) (sortBy : SortOption) :
  Forall (fun v => is_number (sort_key sortBy v)) listings ->
  StronglySorted
    (fun a b => in_order (direction_of sortBy) (sort_key sortBy a) (sort_key sortBy b))
    (sortListings listings sortBy).
Proof.
  intros Hnum. unfold sortListings. rewrite comparators_by_key.
  apply Array_sort_StronglySorted
    with (P := fun v => is_number (sort_key sortBy v)).
  - intros a b c Pa Pb Pc. now apply in_order_trans.
  - intros a b Pa Pb. now apply compare_stays.
  - intros a b Pa Pb. now apply compare_moves.
  - exact Hnum.
Qed.

Lemma sortListings_Permutation (listings : list VehicleListing.t) (sortBy : SortOption) :
  Permutation listings (sortListings listings sortBy).
Proof.
  unfold sortListings. rewrite comparators_by_key. apply Array_sort_Permutation.
Qed.

(** X6: sorting again by the same option changes nothing. *)
Theorem sortListings_idempotent (listings : list VehicleListing.t) (sortBy : SortOption) :
  Forall (fun v => is_number (sort_key sortBy v)) listings ->
  sortListings (sortListings listings sortBy) sortBy = sortListings listings sortBy.
Proof.
  intros Hnum.
  assert (Hnum' : Forall (fun v => is_number (sort_key sortBy v))
                    (sortListings listings sortBy)).
  { apply Permutation_Forall with listings;
      [apply sortListings_Permutation | exact Hnum]. }
  pose proof (sortListings_sorted listings sortBy Hnum) as Hs.
  unfold sortListings at 1. rewrite comparators_by_key.
  apply Array_sort_fixed
    with (R := fun a b =>
                 in_order (direction_of sortBy) (sort_key sortBy a) (sort_key sortBy b))
         (P := fun v => is_number (sort_key sortBy v)).
  - intros a b Pa Pb. now apply compare_keeps.
  - exact Hnum'.
  - exact Hs.
Qed.

Lemma sortListings_idempotent_witness :
  sortListings (sortListings three_prices priceDesc) priceDesc
  = sortListings three_prices priceDesc.
Proof.
  apply sortListings_idempotent. repeat constructor; discriminate.
Defined.

(** X7: the sort is stable: the listings that share a value of the
    sorted field, those that lack it included, come back in the order
    they had. *)
Theorem sortListings_stable (listings : list VehicleListing.t) (sortBy : SortOption)
    (key : option number) :
  Forall (fun v => is_number (sort_key sortBy v)) listings ->
  filter (fun v => key_eqb (sort_key sortBy v) key) (sortListings listings sortBy)
  = filter (fun v => key_eqb (sort_key sortBy v) key) listings.
Proof.
  intros _. unfold sortListings. rewrite comparators_by_key.
  apply Array_sort_filter. intros a b Ha Hb.
  now apply compare_same_key with key.
Qed.

Lemma sortListings_stable_witness :
  filter (fun v => key_eqb (sort_key priceDesc v) None)
    (sortListings
       [priced "a" None; priced "b" (Some (Num 7)); priced "c" None] priceDesc)
  = filter (fun v => key_eqb (sort_key priceDesc v) None)
      [priced "a" None; priced "b" (Some (Num 7)); priced "c" None].
Proof.
  apply sortListings_stable. repeat constructor; discriminate.
Defined.

(** X8: when no two listings have the same price, and at most one has
    none, sorting by price from high to low gives the reverse of sorting
    from low to high. *)
Theorem priceDesc_reverses_priceAsc (listings : list VehicleListing.t) :
  Forall (fun v => is_number (VehicleListing.price v)) listings ->
  NoDup (map VehicleListing.price listings) ->
  sortListings listings priceDesc = rev (sortListings listings priceAsc).
Proof.
  intros Hnum Hnd.
  apply StronglySorted_unique
    with (R := fun a b =>
                 in_order desc (VehicleListing.price a) (VehicleListing.price b)).
  - intros a b Ha Hb Hab Hba.
    apply (NoDup_map_injective VehicleListing.price listings); try assumption.
    + apply (Permutation_in a (Permutation_sym (sortListings_Permutation _ _)) Ha).
    + apply (Permutation_in b (Permutation_sym (sortListings_Permutation _ _)) Hb).
    + now apply in_order_antisym with desc.
  - exact (sortListings_sorted listings priceDesc Hnum).
  - apply StronglySorted_impl
      with (R := fun a b =>
                   in_order asc (VehicleListing.price b) (VehicleListing.price a)).
    + intros a b _ _. apply in_order_mirror.
    + apply StronglySorted_rev
        with (R := fun a b =>
                     in_order asc (VehicleListing.price a) (VehicleListing.price b)).
      exact (sortListings_sorted listings priceAsc Hnum).
  - apply perm_trans with listings.
    + apply Permutation_sym, sortListings_Permutation.
    + apply perm_trans with (sortListings listings priceAsc).
      * apply sortListings_Permutation.
      * apply Permutation_rev.
Qed.

Lemma priceDesc_reverses_priceAsc_witness :
  sortListings three_prices priceDesc = rev (sortListings three_prices priceAsc).
Proof.
  apply priceDesc_reverses_priceAsc.
  - repeat constructor; discriminate.
  - repeat constructor; simpl; intuition discriminate.
Defined.

(** ** More on the form *)

Lemma trimStart_head (s : string) :
  match trimStart s with
  | EmptyString => True
  | String c _ => is_whitespace c = false
  end.
Proof.
  induction s as [|c s IH]; simpl; [exact I|].
  destruct (is_whitespace c) eqn:Hc; [exact IH | exact Hc].
Qed.

Lemma trimEnd_head (c : ascii) (s : string) :
  is_whitespace c = false -> exists t, trimEnd (String c s) = String c t.
Proof.
  intros Hc. simpl. destruct (trimEnd s) as [|c' t].
  - rewrite Hc. now exists EmptyString.
  - now exists (String c' t).
Qed.

Lemma trimStart_fixed (s : string) :
  match s with
  | EmptyString => True
  | String c _ => is_whitespace c = false
  end ->
  trimStart s = s.
Proof.
  destruct s as [|c s]; simpl; [reflexivity|]. intros Hc. now rewrite Hc.
Qed.

Lemma trimEnd_idempotent (s : string) : trimEnd (trimEnd s) = trimEnd s.
Proof.
  induction s as [|c s IH]; [reflexivity|].
  simpl. destruct (trimEnd s) as [|c' t] eqn:Et.
  - destruct (is_whitespace c) eqn:Hc; [reflexivity|]. simpl. now rewrite Hc.
  - change (trimEnd (String c (String c' t)))
      with (match trimEnd (String c' t) with
            | EmptyString =>
                if is_whitespace c then EmptyString else String c EmptyString
            | t' => String c t'
            end).
    now rewrite IH.
Qed.

Lemma trim_idempotent (s : string) : trim (trim s) = trim s.
Proof.
  unfold trim at 1.
  assert (Hstart : trimStart (trim s) = trim s).
  { apply trimStart_fixed. unfold trim.
    pose proof (trimStart_head s) as Hh.
    destruct (trimStart s) as [|c r]; [exact I|].
    destruct (trimEnd_head c r Hh) as (t & Ht). now rewrite Ht. }
  rewrite Hstart. unfold trim. apply trimEnd_idempotent.
Qed.

(** X9: what [sanitizeText] hands over is nothing or a text that is not
    empty and has no white space at either end; sanitizing it again gives
    it back. *)
Theorem sanitizeText_trimmed (v : option string) :
  sanitizeText (sanitizeText v) = sanitizeText v /\
  match sanitizeText v with
  | Some s => s <> "" /\ trim s = s
  | None => True
  end.
Proof.
  destruct (sanitizeText v) as [s|] eqn:Hv; [|split; [reflexivity | exact I]].
  apply sanitizeText_spec in Hv. destruct Hv as (r & _ & Hs & Hne).
  assert (Htrim : trim s = s) by (subst s; apply trim_idempotent).
  assert (Hs' : s <> "") by now subst s.
  split; [|split; assumption].
  apply sanitizeText_spec. exists s.
  rewrite Htrim. split; [reflexivity|]. split; [reflexivity | exact Hs'].
Qed.

(** ** The card of a listing *)

Lemma remove_undialable_dialable (s : string) :
  string_forallb is_dialable (remove_undialable s) = true.
Proof.
  induction s as [|c s IH]; [reflexivity|].
  simpl. destruct (is_dialable c) eqn:Hc; [|exact IH].
  simpl. now rewrite Hc, IH.
Qed.

Lemma remove_undialable_fixed (s : string) :
  string_forallb is_dialable s = true -> remove_undialable s = s.
Proof.
  induction s as [|c s IH]; [reflexivity|].
  simpl. intros H. apply andb_true_iff in H. destruct H as [Hc Hs].
  rewrite Hc. now rewrite IH.
Qed.

Lemma is_dialable_spec (c : ascii) :
  is_dialable c = existsb (Ascii.eqb c) (list_ascii_of_string "0123456789+").
Proof.
  destruct c as [[] [] [] [] [] [] [] []]; reflexivity.
Qed.

Lemma remove_undialable_filter (s : string) :
  list_ascii_of_string (remove_undialable s)
  = filter (fun c => existsb (Ascii.eqb c) (list_ascii_of_string "0123456789+"))
      (list_ascii_of_string s).
Proof.
  induction s as [|c s IH]; [reflexivity|].
  cbn [remove_undialable list_ascii_of_string filter].
  rewrite <- is_dialable_spec. destruct (is_dialable c); [|exact IH].
  cbn [list_ascii_of_string]. now rewrite IH.
Qed.

(** X12: the phone link of a card is shown exactly when the listing has
    a dealer phone that is not empty; its text is Call and the phone, and
    its address is tel: followed by the characters of the phone that are
    one of 0123456789+, every one of them and in their order, so by the
    phone itself when it has no other character. *)
Theorem dealer_contact_link
    (currencyFormat numberFormat toFixed1 : number -> string)
    (vehicle : VehicleListing.t) :
  match CardView.dealerContact
          (VehicleCard currencyFormat numberFormat toFixed1 vehicle) with
  | Some (href, text) =>
      exists phone dialled,
        VehicleListing.dealerPhone vehicle = Some phone /\ phone <> "" /\
        href = "tel:" ++ dialled /\ text = "Call " ++ phone /\
        list_ascii_of_string dialled
        = filter (fun c => existsb (Ascii.eqb c) (list_ascii_of_string "0123456789+"))
            (list_ascii_of_string phone) /\
        string_forallb is_dialable dialled = true /\
        (string_forallb is_dialable phone = true -> dialled = phone)
  | None =>
      VehicleListing.dealerPhone vehicle = None \/
      VehicleListing.dealerPhone vehicle = Some ""
  end.
Proof.
  unfold VehicleCard. simpl CardView.dealerContact.
  destruct (VehicleListing.dealerPhone vehicle) as [[|c phone]|]; simpl String_truthy;
    cbv iota; [now right | | now left].
  exists (String c phone), (remove_undialable (String c phone)).
  split; [reflexivity|]. split; [discriminate|].
  split; [reflexivity|]. split; [reflexivity|].
  split; [apply remove_undialable_filter|].
  split; [apply remove_undialable_dialable | apply remove_undialable_fixed].
Qed.

Example dealer_contact_of_formatted_phone :
  remove_undialable "+1 (512) 555-0100" = "+15125550100".
Proof. reflexivity. Qed.


Lemma normalizeListing_links (random_token : nat -> string)
    (listing : MarketcheckListing.t) (k : nat) :
  exists v k',
    normalizeListing random_token listing k = (Ok v, k') /\
    VehicleListing.listingUrl v
    = MarketcheckListing.vdp_url listing
        ?? MarketcheckListing.scraped_listing_url listing
        ?? Dealer.website (MarketcheckListing.dealer listing ?! Dealer.empty) /\
    VehicleListing.dealerWebsite v
    = Dealer.website (MarketcheckListing.dealer listing ?! Dealer.empty)
        ?? MarketcheckListing.website listing
        ?? MarketcheckListing.scraped_listing_url listing.
Proof.
  unfold normalizeListing, bind, listing_id, cryptoRandomId, ret.
  destruct (MarketcheckListing.id listing ?? MarketcheckListing.vin listing);
    do 2 eexists; (split; [reflexivity|]); split; reflexivity.
Qed.

(** X14: the picture of a card links to the first address the record
    has among its vdp_url, its scraped_listing_url, the website of its
    dealer and its own website, in that order; there is no link when the
    record has none of them, and none either when the first one it has is
    the empty string. *)
Theorem card_link_of_record (random_token : nat -> string)
    (currencyFormat numberFormat toFixed1 : number -> string)
    (listing : MarketcheckListing.t) (k : nat) :
  exists v k',
    normalizeListing random_token listing k = (Ok v, k') /\
    CardView.mediaLink (VehicleCard currencyFormat numberFormat toFixed1 v)
    = match MarketcheckListing.vdp_url listing
              ?? MarketcheckListing.scraped_listing_url listing
              ?? Dealer.website (MarketcheckListing.dealer listing ?! Dealer.empty)
              ?? MarketcheckListing.website listing with
      | Some (String c r) => Some (String c r)
      | Some EmptyString | None => None
      end.
Proof.
  destruct (normalizeListing_links random_token listing k) as (v & k' & Hrun & Hl & Hd).
  exists v, k'. split; [exact Hrun|].
  unfold VehicleCard. simpl CardView.mediaLink. rewrite Hl, Hd.
  destruct (MarketcheckListing.vdp_url listing) as [[|c0 r0]|]; try reflexivity.
  destruct (MarketcheckListing.scraped_listing_url listing) as [[|c1 r1]|];
    try reflexivity;
    destruct (Dealer.website (MarketcheckListing.dealer listing ?! Dealer.empty))
      as [[|c2 r2]|]; try reflexivity;
    destruct (MarketcheckListing.website listing) as [[|c3 r3]|]; reflexivity.
Qed.

(** X15: a record without vdp_url and without a website of its own, and
    with only one of scraped_listing_url and dealer website, gets the same
    address as its listing URL and as its dealer website, so the two
    buttons of its card lead to the same place. *)
Theorem single_address_serves_both_buttons (random_token : nat -> string)
    (currencyFormat numberFormat toFixed1 : number -> string)
    (listing : MarketcheckListing.t) (k : nat) :
  MarketcheckListing.vdp_url listing = None ->
  MarketcheckListing.website listing = None ->
  MarketcheckListing.scraped_listing_url listing = None \/
  Dealer.website (MarketcheckListing.dealer listing ?! Dealer.empty) = None ->
  exists v k',
    normalizeListing random_token listing k = (Ok v, k') /\
    VehicleListing.listingUrl v = VehicleListing.dealerWebsite v /\
    CardView.actions (VehicleCard currencyFormat numberFormat toFixed1 v)
    = match MarketcheckListing.scraped_listing_url listing
              ?? Dealer.website (MarketcheckListing.dealer listing ?! Dealer.empty) with
      | Some (String c r) =>
          [("View Listing", String c r); ("Dealer Website", String c r)]
      | Some EmptyString | None => []
      end.
Proof.
  intros Hvdp Hweb Hone.
  destruct (normalizeListing_links random_token listing k) as (v & k' & Hrun & Hl & Hd).
  exists v, k'. split; [exact Hrun|].
  unfold VehicleCard. simpl CardView.actions. rewrite Hl, Hd, Hvdp, Hweb.
  destruct Hone as [H|H]; rewrite H;
    [ destruct (Dealer.website (MarketcheckListing.dealer listing ?! Dealer.empty))
        as [[|c r]|]
    | destruct (MarketcheckListing.scraped_listing_url listing) as [[|c r]|] ];
    split; reflexivity.
Qed.

Lemma single_address_witness :
  exists v k',
    normalizeListing (fun _ => "token")
      {| MarketcheckListing.id := Some "id-1";
         MarketcheckListing.vin := None;
         MarketcheckListing.heading := None;
         MarketcheckListing.price := None;
         MarketcheckListing.miles := None;
         MarketcheckListing.mileage := None;
         MarketcheckListing.dist := None;
         MarketcheckListing.distance := None;
         MarketcheckListing.exterior_color := None;
         MarketcheckListing.interior_color := None;
         MarketcheckListing.media := None;
         MarketcheckListing.dealer := None;
         MarketcheckListing.build := None;
         MarketcheckListing.vdp_url := None;
         MarketcheckListing.ref_price := None;
         MarketcheckListing.scraped_listing_url := Some "https://dealer.example/car/1";
         MarketcheckListing.website := None |} 0%nat
    = (Ok v, k') /\
    VehicleListing.listingUrl v = VehicleListing.dealerWebsite v /\
    CardView.actions (VehicleCard Number_toString Number_toString Number_toString v)
    = [("View Listing", "https://dealer.example/car/1");
       ("Dealer Website", "https://dealer.example/car/1")].
Proof.
  apply (single_address_serves_both_buttons (fun _ => "token")
           Number_toString Number_toString Number_toString
           {| MarketcheckListing.id := Some "id-1";
              MarketcheckListing.vin := None;
              MarketcheckListing.heading := None;
              MarketcheckListing.price := None;
              MarketcheckListing.miles := None;
              MarketcheckListing.mileage := None;
              MarketcheckListing.dist := None;
              MarketcheckListing.distance := None;
              MarketcheckListing.exterior_color := None;
              MarketcheckListing.interior_color := None;
              MarketcheckListing.media := None;
              MarketcheckListing.dealer := None;
              MarketcheckListing.build := None;
              MarketcheckListing.vdp_url := None;
              MarketcheckListing.ref_price := None;
              MarketcheckListing.scraped_listing_url := Some "https://dealer.example/car/1";
              MarketcheckListing.website := None |} 0%nat);
    [reflexivity | reflexivity | right; reflexivity].
Defined.

(** ** The page after a search *)

Section Page.
Variable URL_new : string -> result Request.t.
Variable random_token : nat -> string.
Variable fetch : Request.t -> Response.t.
Variable cfg : AppConfig.t.
Variables type_error_text syntax_error_text : string.
Variables currencyFormat numberFormat toFixed1 : number -> string.

Local Abbreviation search := (searchVehicles URL_new random_token fetch cfg).
Local Abbreviation handle :=
  (handleSearch URL_new random_token fetch cfg type_error_text syntax_error_text).
Local Abbreviation page := (render currencyFormat numberFormat toFixed1).

Lemma blocks_after_search (st : AppState.t) (criteria : SearchCriteria.t) (k : nat) :
  AppView.blocks (page (fst (handle st criteria k)))
  = match fst (search criteria k) with
    | Ok [] =>
        [ResultsSection (Some (results_summary criteria)) (InfoAlert NO_MATCH_MESSAGE)]
    | Ok (v :: vs) =>
        [ResultsSection (Some (results_summary criteria))
           (VehicleGrid
              (VehicleResults currencyFormat numberFormat toFixed1 (v :: vs)))]
    | Throw e =>
        match message_of type_error_text syntax_error_text e with
        | EmptyString => []
        | String c r => [ErrorAlert (String c r)]
        end
    end.
Proof.
  unfold handleSearch, render.
  destruct (search criteria k) as [[[|v vs]|e] k']; simpl; try reflexivity.
  destruct (message_of type_error_text syntax_error_text e); reflexivity.
Qed.

(** X16: while a search is awaited the page shows the spinner and
    nothing else, whatever it showed before.  Once the search has ended
    the page shows, whatever it showed before, the summary of this search
    with one card for each listing, in the order returned, or with the
    notice that nothing matched when no listing came back; after a
    failure it shows the error message alone, and nothing at all when
    that message is empty.  The search is then marked as not running and
    the criteria are kept as the last search. *)
Theorem page_after_search (st : AppState.t) (criteria : SearchCriteria.t) (k : nat) :
  page (searching st criteria)
  = {| AppView.isSearching := true;
       AppView.blocks := [SpinnerRow "Finding your Dream Car"] |} /\
  AppView.isSearching (page (fst (handle st criteria k))) = false /\
  AppState.lastSearch (fst (handle st criteria k)) = Some criteria /\
  snd (handle st criteria k) = snd (search criteria k) /\
  AppView.blocks (page (fst (handle st criteria k)))
  = match fst (search criteria k) with
    | Ok [] =>
        [ResultsSection (Some (results_summary criteria)) (InfoAlert NO_MATCH_MESSAGE)]
    | Ok (v :: vs) =>
        [ResultsSection (Some (results_summary criteria))
           (VehicleGrid (map (VehicleCard currencyFormat numberFormat toFixed1) (v :: vs)))]
    | Throw e =>
        match message_of type_error_text syntax_error_text e with
        | EmptyString => []
        | String c r => [ErrorAlert (String c r)]
        end
    end.
Proof.
  split; [reflexivity|].
  split; [|split; [|split; [|apply blocks_after_search]]];
    unfold handleSearch; destruct (search criteria k) as [[listings|e] k'];
    reflexivity.
Qed.


(** X18: when the service answers with a success and a body that can be
    read but has no listings array, or an empty one, the page shows the
    summary of the search and the notice that nothing matched, not an
    error. *)
Theorem page_after_empty_response (st : AppState.t) (criteria : SearchCriteria.t)
    (request : Request.t) (payload : value) (k : nat) :
  searchRequest URL_new cfg criteria = Ok request ->
  Response.ok (fetch request) = true ->
  Response.json (fetch request) = Some payload ->
  nullish_value payload = false ->
  listings_of payload = [] ->
  AppState.status (fst (handle st criteria k)) = Status.success /\
  AppView.blocks (page (fst (handle st criteria k)))
  = [ResultsSection (Some (results_summary criteria)) (InfoAlert NO_MATCH_MESSAGE)].
Proof.
  intros Hreq Hok Hjson Hp Hl.
  assert (Hrun : search criteria k = (Ok [], k)).
  { unfold searchVehicles. rewrite Hreq. rewrite handleResponse_ok by exact Hok.
    rewrite Hjson, Hp, Hl. simpl. now rewrite sortListings_nil. }
  rewrite blocks_after_search. unfold handleSearch. rewrite Hrun. simpl.
  split; reflexivity.
Qed.

End Page.


Lemma page_after_empty_response_witness :
  AppView.blocks
    (render Number_toString Number_toString Number_toString
       (fst (handleSearch URL_plain (fun _ => "token")
               (respond true "OK" (Some (Object [("listings", Array [])])))
               (appConfig (env_with None)) "TypeError" "SyntaxError"
               AppState.initial plain_criteria 0%nat)))
  = [ResultsSection (Some (results_summary plain_criteria))
       (InfoAlert NO_MATCH_MESSAGE)].
Proof.
  exact (proj2
    (page_after_empty_response URL_plain (fun _ => "token")
       (respond true "OK" (Some (Object [("listings", Array [])])))
       (appConfig (env_with None)) "TypeError" "SyntaxError"
       Number_toString Number_toString Number_toString
       AppState.initial plain_criteria _ (Object [("listings", Array [])]) 0%nat
       eq_refl eq_refl eq_refl eq_refl eq_refl)).
Defined.

